(** * demo-code-interpreter-v2.js: a shallow embedding and its properties

    The script is sequential orchestration around SDK calls: two pre-flight
    checks, a [try] block that creates a client, an agent and a
    conversation, dispatches one request and reports on the response, a
    [catch] block that logs the error with hints, and a [finally] block that
    deletes the conversation and the agent.

    The embedding is a small writer/state/exception monad.  Everything the
    script observes from outside (environment variables, the file system,
    the outcome of every SDK call) is collected in a record [world]; every
    effect of the script (console output, SDK calls, [process.exit]) is an
    [event] of the trace it produces. *)

From Stdlib Require Import String Ascii List ZArith Bool Lia DecimalString.
Import ListNotations.
Local Open Scope Z_scope.
Local Open Scope list_scope.
Local Open Scope string_scope.

(** ** JavaScript data *)

(** Data that reaches the script from the service: JSON values, plus
    [undefined] for what is absent.  Numbers are the integer-valued ones
    (token counts, lengths).  The fields of an object are looked up in
    order, first match. *)
#[local] Unset Elimination Schemes.
Inductive value : Type :=
| VUndefined
| VNull
| VBool (b : bool)
| VNumber (n : Z)
| VString (s : string)
| VArray (items : list value)
| VObject (fields : list (string * value)).
#[local] Set Elimination Schemes.

(** What the SDK, [fs] and the runtime throw: [Error] instances
    ([RestError], [APIError], [TypeError], ...), whose [message] is a
    string.  A thrown value that is not an [Error] is outside the model. *)
Record js_error : Type := Error { err_name : string; message : string }.

Definition TypeError (msg : string) : js_error := Error "TypeError" msg.

(** Strings are kept as their UTF-8 bytes. *)
Definition nl : string := String "010"%char EmptyString.

(** [s.repeat(n)] *)
Fixpoint repeat_string (s : string) (n : nat) : string :=
  match n with
  | O => EmptyString
  | S k => s ++ repeat_string s k
  end.

(** [hay.includes(needle)] *)
Fixpoint includes (hay needle : string) : bool :=
  String.prefix needle hay ||
  match hay with
  | EmptyString => false
  | String _ rest => includes rest needle
  end.

(** [s.split(c)] for a one-character separator *)
Fixpoint split (c : ascii) (s : string) : list string :=
  match s with
  | EmptyString => [EmptyString]
  | String a rest =>
      if Ascii.eqb a c then EmptyString :: split c rest
      else match split c rest with
           | h :: t => String a h :: t
           | [] => [String a EmptyString]
           end
  end.

(** [parts.join(sep)] *)
Definition join (sep : string) (parts : list string) : string :=
  String.concat sep parts.

(** [s.length]: the number of UTF-16 code units of the string.  On the
    UTF-8 bytes: one per byte that starts a code point, one more for a
    four-byte sequence (a surrogate pair). *)
Fixpoint js_length (s : string) : Z :=
  match s with
  | EmptyString => 0
  | String a rest =>
      let b := Z.of_nat (nat_of_ascii a) in
      ((if (b <? 128) || (192 <=? b) then 1 else 0)
       + (if 240 <=? b then 1 else 0)
       + js_length rest)%Z
  end.

(** The decimal digits of an integer.  This is what JavaScript prints for
    a safe integer (magnitude at most 2^53); beyond that JavaScript prints
    the shortest digits of the nearest double, and exponent notation from
    1e21 on, which the model does not follow: see [printable]. *)
Definition number_to_string (n : Z) : string :=
  NilZero.string_of_int (Z.to_int n).

(** [String(v)], which is what a template literal applies to [${v}], on
    the values that are [printable] (defined with the statements): there
    an object prints as ["[object Object]"].  An object with an own
    [toString] property makes JavaScript throw instead; the total
    function below does not follow that path. *)
Fixpoint to_string (v : value) : string :=
  match v with
  | VUndefined => "undefined"
  | VNull => "null"
  | VBool true => "true"
  | VBool false => "false"
  | VNumber n => number_to_string n
  | VString s => s
  | VArray items =>
      (fix elements (l : list value) : string :=
         match l with
         | [] => EmptyString
         | x :: rest =>
             let sx := match x with
                       | VUndefined | VNull => EmptyString
                       | _ => to_string x
                       end in
             match rest with
             | [] => sx
             | _ :: _ => sx ++ "," ++ elements rest
             end
         end) items
  | VObject _ => "[object Object]"
  end.

(** Truthiness: [undefined], [null], [false], [0] and the empty string are
    falsy. *)
Definition truthy (v : value) : bool :=
  match v with
  | VUndefined | VNull => false
  | VBool b => b
  | VNumber n => negb (n =? 0)%Z
  | VString s => negb (s =? EmptyString)
  | VArray _ | VObject _ => true
  end.

(** [a || b] *)
Definition or_else (a b : value) : value := if truthy a then a else b.

(** [Array.isArray(v)] *)
Definition isArray (v : value) : bool :=
  match v with VArray _ => true | _ => false end.

(** [v === "s"] *)
Definition strict_eq_string (v : value) (s : string) : bool :=
  match v with VString t => t =? s | _ => false end.

Fixpoint lookup_field (fields : list (string * value)) (key : string) : value :=
  match fields with
  | [] => VUndefined
  | (k, v) :: rest => if k =? key then v else lookup_field rest key
  end.

(** Reading a data property [v.key].  Reading from [undefined] or [null]
    throws; a primitive has no own data property apart from the [length]
    of a string, an array has [length]. *)
Definition get_prop (v : value) (key : string) : value + js_error :=
  match v with
  | VUndefined =>
      inr (TypeError ("Cannot read properties of undefined (reading '"
                      ++ key ++ "')"))
  | VNull =>
      inr (TypeError ("Cannot read properties of null (reading '"
                      ++ key ++ "')"))
  | VBool _ | VNumber _ => inl VUndefined
  | VString s => inl (if key =? "length" then VNumber (js_length s)
                      else VUndefined)
  | VArray items => inl (if key =? "length"
                         then VNumber (Z.of_nat (List.length items))
                         else VUndefined)
  | VObject fields => inl (lookup_field fields key)
  end.

(** [v?.key] *)
Definition get_prop_opt (v : value) (key : string) : value :=
  match get_prop v key with
  | inl x => x
  | inr _ => VUndefined
  end.

(** ** Effects *)

(** The SDK client objects are opaque to the script. *)
Inductive AIProjectClient : Type := new_AIProjectClient (endpoint : value).
Inductive OpenAIClient : Type := the_OpenAIClient.

(** What a run does, in order.  A call is recorded when it is made, with
    the arguments the script computed for it, whatever its outcome.
    [enter_finally] is not an effect: it marks that control entered the
    [finally] block of [main]. *)
Inductive event : Type :=
| console_log (args : list value)
| console_error (args : list value)
| console_error_reason (reason : js_error)
| process_exit (code : Z)
| fs_existsSync (path : string)
| fs_readFileSync (path encoding : string)
| DefaultAzureCredential_new
| AIProjectClient_new (endpoint : value)
| project_getOpenAIClient
| agents_createVersion (name kind : string) (model : value)
                       (instructions : string) (tools : list string)
| conversations_create
| responses_create (conversation : value) (input : string)
                   (agent_name : value) (agent_type : string)
| conversations_delete (id : value)
| agents_deleteVersion (name version : value)
| enter_finally.

(** What the script meets in one run.  Each call site is executed at most
    once, so one outcome per call site describes any behaviour of the
    outside: [inl] is the value returned (or resolved), [inr] the error
    thrown (or the rejection). *)
Record world : Type := World {
  env_AZURE_FOUNDRY_PROJECT_ENDPOINT : option string;
  env_AZURE_FOUNDRY_GPT_MODEL : option string;
  on_existsSync : bool;
  on_readFileSync : string + js_error;
  on_DefaultAzureCredential : unit + js_error;
  on_AIProjectClient : unit + js_error;
  on_getOpenAIClient : unit + js_error;
  on_createVersion : value + js_error;
  on_conversations_create : value + js_error;
  on_responses_create : value + js_error;
  on_conversations_delete : unit + js_error;
  on_deleteVersion : unit + js_error
}.

(** The [let] variables of [main]. *)
Record vars : Type := Vars {
  agent : value;
  project : option AIProjectClient;
  openAIClient : option OpenAIClient;
  conversation : value
}.

(** How a piece of code ends: normally, by a throw, or by [process.exit],
    which ends the process on the spot (no handler, no [finally]). *)
Inductive completion (A : Type) : Type :=
| Normal (a : A)
| Throw (e : js_error)
| Exit (code : Z).
Arguments Normal {A} a.
Arguments Throw {A} e.
Arguments Exit {A} code.

Definition M (A : Type) : Type := vars -> completion A * vars * list event.

Definition ret {A} (a : A) : M A := fun s => (Normal a, s, []).

Definition bind {A B} (m : M A) (f : A -> M B) : M B :=
  fun s =>
    match m s with
    | (Normal a, s1, t1) =>
        match f a s1 with
        | (c, s2, t2) => (c, s2, (t1 ++ t2)%list)
        end
    | (Throw e, s1, t1) => (Throw e, s1, t1)
    | (Exit n, s1, t1) => (Exit n, s1, t1)
    end.

Declare Scope js_scope.
Delimit Scope js_scope with js.
Notation "x <- m ;; k" := (bind m (fun x => k))
  (at level 100, m at next level, right associativity) : js_scope.
Notation "m ;; k" := (bind m (fun _ => k))
  (at level 100, right associativity) : js_scope.
Local Open Scope js_scope.

Definition emit (e : event) : M unit := fun s => (Normal tt, s, [e]).
Definition throw {A} (e : js_error) : M A := fun s => (Throw e, s, []).

(** [process.exit(code)] *)
Definition exit {A} (code : Z) : M A :=
  fun s => (Exit code, s, [process_exit code]).

Definition lift {A} (r : A + js_error) : M A :=
  match r with
  | inl a => ret a
  | inr e => throw e
  end.

(** A call to the outside: recorded, then its outcome. *)
Definition call {A} (e : event) (outcome : A + js_error) : M A :=
  emit e ;; lift outcome.

Definition prop (v : value) (key : string) : M value := lift (get_prop v key).

Definition log (s : string) : M unit := emit (console_log [VString s]).

Definition read {A} (f : vars -> A) : M A := fun s => (Normal (f s), s, []).
Definition assign (f : vars -> vars) : M unit := fun s => (Normal tt, f s, []).

Definition set_agent (v : value) (s : vars) : vars :=
  Vars v (project s) (openAIClient s) (conversation s).
Definition set_project (p : option AIProjectClient) (s : vars) : vars :=
  Vars (agent s) p (openAIClient s) (conversation s).
Definition set_openAIClient (c : option OpenAIClient) (s : vars) : vars :=
  Vars (agent s) (project s) c (conversation s).
Definition set_conversation (v : value) (s : vars) : vars :=
  Vars (agent s) (project s) (openAIClient s) v.

(** [try { body } catch (e) { handler }] *)
Definition try_catch {A} (body : M A) (handler : js_error -> M A) : M A :=
  fun s =>
    match body s with
    | (Throw e, s1, t1) =>
        match handler e s1 with
        | (c, s2, t2) => (c, s2, (t1 ++ t2)%list)
        end
    | r => r
    end.

(** [try { body } finally { finalizer }]: the finalizer runs after a normal
    end and after a throw; if it ends normally the completion of the body
    stands. *)
Definition try_finally {A} (body : M A) (finalizer : M unit) : M A :=
  fun s =>
    match body s with
    | (Exit n, s1, t1) => (Exit n, s1, t1)
    | (c, s1, t1) =>
        match finalizer s1 with
        | (Normal _, s2, t2) => (c, s2, (t1 ++ t2)%list)
        | (Throw e, s2, t2) => (Throw e, s2, (t1 ++ t2)%list)
        | (Exit n, s2, t2) => (Exit n, s2, (t1 ++ t2)%list)
        end
    end.

(** [try { body } catch (e) { handler } finally { finalizer }] *)
Definition try_catch_finally (body : M unit) (handler : js_error -> M unit)
    (finalizer : M unit) : M unit :=
  try_finally (try_catch body handler) finalizer.

(** ** The script *)

Definition line_feed : ascii := "010"%char.

Definition rule (n : nat) : string := repeat_string "─" n.

(** *** Response reporter (steps 8 and 9 of [main]) *)

Definition confirmation_line : string := nl ++ "✓ CODE INTERPRETER WAS USED!".
Definition not_used_line : string :=
  nl ++ "No code_interpreter_call found in output.".

(** [code.split('\n')]: only a string has the method. *)
Definition call_split (code : value) : list string + js_error :=
  match code with
  | VString s => inl (split line_feed s)
  | _ => inr (TypeError "item.code.split is not a function")
  end.

(** [lines.map(line => "  " + line).join('\n')] *)
Definition indent_lines (lines : list string) : string :=
  join nl (map (fun line => "  " ++ line) lines).

(** The body of the [for (const item of response.output)] loop; the
    result is the new value of [codeInterpreterUsed]. *)
Definition analyse_item (item : value) (codeInterpreterUsed : bool) : M bool :=
  type <- prop item "type" ;;
  log ("Output type: " ++ to_string type) ;;
  if strict_eq_string type "code_interpreter_call" then
    log confirmation_line ;;
    container_id <- prop item "container_id" ;;
    log ("  Container ID: " ++ to_string (or_else container_id (VString "N/A"))) ;;
    id <- prop item "id" ;;
    log ("  Code Interpreter ID: " ++ to_string (or_else id (VString "N/A"))) ;;
    code <- prop item "code" ;;
    (if truthy code then
       log (nl ++ "  Python Code Executed:") ;;
       log ("  " ++ rule 50) ;;
       lines <- lift (call_split code) ;;
       log (indent_lines lines) ;;
       log ("  " ++ rule 50)
     else ret tt) ;;
    ret true
  else ret codeInterpreterUsed.

Fixpoint for_of (items : list value) (codeInterpreterUsed : bool) : M bool :=
  match items with
  | [] => ret codeInterpreterUsed
  | item :: rest =>
      used <- analyse_item item codeInterpreterUsed ;;
      for_of rest used
  end.

(** The elements a [for ... of] visits; it is only reached for an array. *)
Definition elements (v : value) : list value :=
  match v with
  | VArray items => items
  | _ => []
  end.

(** Step 8: display the response. *)
Definition display_response (response : value) : M unit :=
  log "AGENT RESPONSE:" ;;
  log (rule 60) ;;
  output_text <- prop response "output_text" ;;
  emit (console_log [output_text]) ;;
  log (rule 60).

(** Step 9, first half: the per-item analysis. *)
Definition response_analysis (response : value) : M unit :=
  log (nl ++ "RESPONSE ANALYSIS (Proof of Code Interpreter):") ;;
  log (rule 60) ;;
  output <- prop response "output" ;;
  if truthy output && isArray output then
    codeInterpreterUsed <- for_of (elements output) false ;;
    if negb codeInterpreterUsed then log not_used_line else ret tt
  else ret tt.

(** Step 9, second half: the structure printout. *)
Definition response_structure (response : value) : M unit :=
  log (nl ++ "Full Response Structure:") ;;
  id <- prop response "id" ;;
  log (" - Response ID: " ++ to_string id) ;;
  model <- prop response "model" ;;
  log (" - Model: " ++ to_string model) ;;
  output <- prop response "output" ;;
  log (" - Output items: "
       ++ to_string (or_else (get_prop_opt output "length") (VNumber 0))) ;;
  usage <- prop response "usage" ;;
  (if truthy usage then
     input_tokens <- prop usage "input_tokens" ;;
     log (" - Input tokens: " ++ to_string input_tokens) ;;
     output_tokens <- prop usage "output_tokens" ;;
     log (" - Output tokens: " ++ to_string output_tokens)
   else ret tt) ;;
  log (nl ++ "✓ Analysis completed!") ;;
  log (rule 60).

Definition reporter (response : value) : M unit :=
  display_response response ;;
  response_analysis response ;;
  response_structure response.

(** *** The [try] block of [main] *)

Definition instructions : string :=
  "You are a helpful data analyst assistant. " ++ nl ++
  "Use the Code Interpreter tool to execute Python code for data analysis." ++ nl ++
  "Always explain your analysis clearly and provide insights from the data.".

Definition userPrompt (csvContent : string) : string :=
  "Here is a CSV file with sales data:" ++ nl ++
  nl ++
  "```csv" ++ nl ++
  csvContent ++ nl ++
  "```" ++ nl ++
  nl ++
  "Please analyze this data and:" ++ nl ++
  "1. Calculate the total annual sales, expenses, and profit" ++ nl ++
  "2. Identify the month with the highest profit" ++ nl ++
  "3. Calculate the average monthly profit margin (profit/sales * 100)" ++ nl ++
  "4. Provide a brief summary of the business performance" ++ nl ++
  nl ++
  "Use Python code to perform these calculations.".

Definition csvFilePath : string := "./sales_data.csv".

Definition try_block (w : world) (ENDPOINT MODEL : value) : M unit :=
  (* Step 1 *)
  emit (fs_existsSync csvFilePath) ;;
  (if negb (on_existsSync w) then
     emit (console_error [VString ("Error: File not found: " ++ csvFilePath)]) ;;
     emit (console_error
             [VString "Please ensure sales_data.csv exists in the current directory."]) ;;
     exit 1
   else ret tt) ;;
  log ("✓ Found data file: " ++ csvFilePath ++ nl) ;;
  csvContent <- call (fs_readFileSync csvFilePath "utf-8") (on_readFileSync w) ;;
  (* Step 2 *)
  log "Initialising Azure AI Projects client..." ;;
  call DefaultAzureCredential_new (on_DefaultAzureCredential w) ;;
  call (AIProjectClient_new ENDPOINT) (on_AIProjectClient w) ;;
  assign (set_project (Some (new_AIProjectClient ENDPOINT))) ;;
  log ("✓ Client initialised." ++ nl) ;;
  (* Step 3 *)
  log "Getting OpenAI client..." ;;
  call project_getOpenAIClient (on_getOpenAIClient w) ;;
  assign (set_openAIClient (Some the_OpenAIClient)) ;;
  log ("✓ OpenAI client ready." ++ nl) ;;
  (* Step 4 *)
  log "Creating registered AI Agent with Code Interpreter..." ;;
  a <- call (agents_createVersion "DataAnalystAgent" "prompt" MODEL
               instructions ["code_interpreter"])
            (on_createVersion w) ;;
  assign (set_agent a) ;;
  agent_id <- prop a "id" ;;
  log (" - Agent ID: " ++ to_string agent_id) ;;
  agent_name <- prop a "name" ;;
  log (" - Agent Name: " ++ to_string agent_name) ;;
  agent_version <- prop a "version" ;;
  log (" - Agent Version: " ++ to_string agent_version ++ nl) ;;
  (* Step 5 *)
  log "Creating conversation thread..." ;;
  c <- call conversations_create (on_conversations_create w) ;;
  assign (set_conversation c) ;;
  conversation_id <- prop c "id" ;;
  log ("✓ Conversation created (ID: " ++ to_string conversation_id ++ ")" ++ nl) ;;
  (* Step 6 *)
  log (rule 60) ;;
  log "USER MESSAGE:" ;;
  log (rule 60) ;;
  log "Analyzing sales_data.csv with Code Interpreter..." ;;
  log (rule 60 ++ nl) ;;
  (* Step 7 *)
  log ("Running registered Agent via Responses API..." ++ nl) ;;
  conversation_id <- prop c "id" ;;
  agent_name <- prop a "name" ;;
  response <- call (responses_create conversation_id (userPrompt csvContent)
                                      agent_name "agent_reference")
                   (on_responses_create w) ;;
  (* Steps 8 and 9 *)
  reporter response.

(** *** The [catch] block of [main] *)

Definition catch_block (error : js_error) : M unit :=
  emit (console_error [VString (nl ++ "Error occurred:");
                       VString (message error)]) ;;
  (if includes (message error) "DefaultAzureCredential"
   then log (nl ++ "Tip: Make sure you're logged in with 'az login'")
   else ret tt) ;;
  (if includes (message error) "404" || includes (message error) "not found"
   then log (nl ++ "Tip: Check that your AZURE_FOUNDRY_PROJECT_ENDPOINT is correct")
   else ret tt) ;;
  (if includes (message error) "createVersion"
   then log (nl ++ "Tip: Agent creation failed. Check your model deployment name.")
   else ret tt).

(** *** The [finally] block of [main] *)

Definition is_some {A} (o : option A) : bool :=
  match o with Some _ => true | None => false end.

Definition delete_conversation (w : world) : M unit :=
  c <- read conversation ;;
  client <- read openAIClient ;;
  if truthy c && is_some client then
    try_catch
      (id <- prop c "id" ;;
       call (conversations_delete id) (on_conversations_delete w) ;;
       log "✓ Conversation deleted.")
      (fun cleanupError =>
         emit (console_log [VString "Note: Could not delete conversation:";
                            VString (message cleanupError)]))
  else ret tt.

Definition delete_agent (w : world) : M unit :=
  a <- read agent ;;
  p <- read project ;;
  if truthy a && is_some p then
    try_catch
      (name <- prop a "name" ;;
       version <- prop a "version" ;;
       call (agents_deleteVersion name version) (on_deleteVersion w) ;;
       name <- prop a "name" ;;
       version <- prop a "version" ;;
       log ("✓ Agent deleted (" ++ to_string name ++ " v"
            ++ to_string version ++ ")."))
      (fun cleanupError =>
         emit (console_log [VString "Note: Could not delete agent:";
                            VString (message cleanupError)]))
  else ret tt.

Definition finally_block (w : world) : M unit :=
  emit enter_finally ;;
  log (nl ++ "Cleaning up resources...") ;;
  delete_conversation w ;;
  delete_agent w.

(** [let agent = null; let project = null; let openAIClient = null;
    let conversation = null;] *)
Definition vars0 : vars := Vars VNull None None VNull.

(** *** [main] and the top level *)

Definition main (w : world) (ENDPOINT MODEL : value) : M unit :=
  log (repeat_string "=" 60) ;;
  log "AZURE AI FOUNDRY - Code Interpreter Demo v2 (JavaScript)" ;;
  log "Using Registered Agent with Code Interpreter Tool" ;;
  log (repeat_string "=" 60) ;;
  log (nl ++ "Endpoint: " ++ to_string ENDPOINT) ;;
  log ("Model Deployment: " ++ to_string MODEL ++ nl) ;;
  assign (fun _ => vars0) ;;
  try_catch_finally (try_block w ENDPOINT MODEL) catch_block (finally_block w).

(** [process.env.NAME]: an unset variable reads as [undefined], a set one
    as a string. *)
Definition process_env (v : option string) : value :=
  match v with
  | None => VUndefined
  | Some s => VString s
  end.

Definition script (w : world) : M unit :=
  let AZURE_FOUNDRY_PROJECT_ENDPOINT :=
    process_env (env_AZURE_FOUNDRY_PROJECT_ENDPOINT w) in
  let AZURE_FOUNDRY_GPT_MODEL :=
    process_env (env_AZURE_FOUNDRY_GPT_MODEL w) in
  (if negb (truthy AZURE_FOUNDRY_PROJECT_ENDPOINT)
      || negb (truthy AZURE_FOUNDRY_GPT_MODEL)
   then
     emit (console_error [VString "Error: Environment variables not set properly!"]) ;;
     emit (console_error
             [VString "Please set AZURE_FOUNDRY_PROJECT_ENDPOINT and AZURE_FOUNDRY_GPT_MODEL"]) ;;
     exit 1
   else ret tt) ;;
  (* main().catch(console.error) *)
  try_catch (main w AZURE_FOUNDRY_PROJECT_ENDPOINT AZURE_FOUNDRY_GPT_MODEL)
            (fun reason => emit (console_error_reason reason)).

(** A run of the process: the trace, and the exit code.  The process ends
    with the code given to [process.exit], with 0 when the script runs to
    its end, and with 1 on an exception nobody caught. *)
Definition run (w : world) : completion unit * vars * list event :=
  script w vars0.

Definition trace (w : world) : list event := snd (run w).

Definition exit_code (w : world) : Z :=
  match fst (fst (run w)) with
  | Normal _ => 0
  | Throw _ => 1
  | Exit code => code
  end.

(** ** Vocabulary of the statements *)

Definition log_event (s : string) : event := console_log [VString s].

Definition is_console_log (e : event) : bool :=
  match e with console_log _ => true | _ => false end.

Definition is_console_error (e : event) : bool :=
  match e with console_error _ | console_error_reason _ => true | _ => false end.

Definition is_enter_finally (e : event) : bool :=
  match e with enter_finally => true | _ => false end.

Definition is_process_exit (e : event) : bool :=
  match e with process_exit _ => true | _ => false end.

Definition is_responses_create (e : event) : bool :=
  match e with responses_create _ _ _ _ => true | _ => false end.

Definition is_conversations_delete (e : event) : bool :=
  match e with conversations_delete _ => true | _ => false end.

Definition is_agents_deleteVersion (e : event) : bool :=
  match e with agents_deleteVersion _ _ => true | _ => false end.

(** Construction of a client or credential, and every call that goes to
    the service. *)
Definition is_client_or_network (e : event) : bool :=
  match e with
  | DefaultAzureCredential_new | AIProjectClient_new _
  | project_getOpenAIClient | agents_createVersion _ _ _ _ _
  | conversations_create | responses_create _ _ _ _
  | conversations_delete _ | agents_deleteVersion _ _ => true
  | _ => false
  end.

Definition count (f : event -> bool) (t : list event) : nat :=
  List.length (filter f t).

(** How many times control entered the [finally] block. *)
Definition cleanup_count (t : list event) : nat := count is_enter_finally t.

(** Both pre-flight checks pass: the two variables are set and not empty,
    and the data file exists. *)
Definition config_ok (w : world) : bool :=
  truthy (process_env (env_AZURE_FOUNDRY_PROJECT_ENDPOINT w))
  && truthy (process_env (env_AZURE_FOUNDRY_GPT_MODEL w)).

Definition preflight_ok (w : world) : bool :=
  config_ok w && on_existsSync w.

Definition nullish (v : value) : bool :=
  match v with VUndefined | VNull => true | _ => false end.

Definition is_string (v : value) : bool :=
  match v with VString _ => true | _ => false end.

(** An output item tagged as a tool invocation. *)
Definition is_tool_call (item : value) : bool :=
  strict_eq_string (get_prop_opt item "type") "code_interpreter_call".

(** An output item the reporter can walk: it is not [null], and if it is a
    tool invocation its [code] is absent (falsy) or a string. *)
Definition item_ok (item : value) : bool :=
  negb (nullish item)
  && (negb (is_tool_call item)
      || negb (truthy (get_prop_opt item "code"))
      || is_string (get_prop_opt item "code")).


(** A computation that only writes to the console: it leaves the
    variables alone, never ends the process, and every event is a
    [console.log]. *)
Definition console_only {A} (m : M A) : Prop :=
  forall s, exists c t,
    m s = (c, s, t) /\ (forall n, c <> Exit n)
    /\ Forall (fun e => is_console_log e = true) t.

(** What the loop body prints for a tool-invocation item. *)
Definition tool_call_printed (item : value) (t : list event) : Prop :=
  In (log_event confirmation_line) t
  /\ In (log_event ("  Container ID: "
                    ++ to_string (or_else (get_prop_opt item "container_id")
                                          (VString "N/A")))) t
  /\ In (log_event ("  Code Interpreter ID: "
                    ++ to_string (or_else (get_prop_opt item "id")
                                          (VString "N/A")))) t
  /\ (forall code, get_prop_opt item "code" = VString code -> code <> EmptyString ->
        In (log_event (indent_lines (split line_feed code))) t).






(** The guards of the two deletions. *)
Definition conversation_guard (s : vars) : bool :=
  truthy (conversation s) && is_some (openAIClient s).

Definition agent_guard (s : vars) : bool :=
  truthy (agent s) && is_some (project s).

Definition conversation_deleted_note (e : js_error) : event :=
  console_log [VString "Note: Could not delete conversation:";
               VString (message e)].

Definition agent_deleted_note (e : js_error) : event :=
  console_log [VString "Note: Could not delete agent:"; VString (message e)].

(** What each deletion leaves in the trace; [finally_block_eq] shows that
    the [finally] block produces exactly [cleanup_trace]. *)
Definition conversation_cleanup (w : world) (s : vars) : list event :=
  if conversation_guard s then
    [ conversations_delete (get_prop_opt (conversation s) "id");
      match on_conversations_delete w with
      | inl _ => log_event "✓ Conversation deleted."
      | inr e => conversation_deleted_note e
      end ]
  else [].

Definition agent_cleanup (w : world) (s : vars) : list event :=
  if agent_guard s then
    [ agents_deleteVersion (get_prop_opt (agent s) "name")
                           (get_prop_opt (agent s) "version");
      match on_deleteVersion w with
      | inl _ => log_event ("✓ Agent deleted ("
                            ++ to_string (get_prop_opt (agent s) "name") ++ " v"
                            ++ to_string (get_prop_opt (agent s) "version")
                            ++ ").")
      | inr e => agent_deleted_note e
      end ]
  else [].

Definition cleanup_trace (w : world) (s : vars) : list event :=
  (enter_finally :: log_event (nl ++ "Cleaning up resources...")
     :: conversation_cleanup w s ++ agent_cleanup w s)%list.

(** What the [try] block can leave in the trace. *)
Definition is_pipeline_event (e : event) : bool :=
  match e with
  | console_log _ | fs_existsSync _ | fs_readFileSync _ _
  | DefaultAzureCredential_new | AIProjectClient_new _
  | project_getOpenAIClient | agents_createVersion _ _ _ _ _
  | conversations_create | responses_create _ _ _ _ => true
  | _ => false
  end.

(** The request was dispatched: the trace splits around the one
    [responses.create] call, which comes after both creations returned. *)
Definition dispatched (w : world) (MODEL : value) (t : list event) : Prop :=
  exists csvContent a c pre post,
    on_readFileSync w = inl csvContent
    /\ on_createVersion w = inl a
    /\ on_conversations_create w = inl c
    /\ nullish a = false
    /\ nullish c = false
    /\ t = (pre ++ responses_create (get_prop_opt c "id") (userPrompt csvContent)
                                    (get_prop_opt a "name") "agent_reference"
                :: post)%list
    /\ In (agents_createVersion "DataAnalystAgent" "prompt" MODEL instructions
                                ["code_interpreter"]) pre
    /\ In conversations_create pre
    /\ Forall (fun e => is_responses_create e = false) pre
    /\ Forall (fun e => is_console_log e = true) post.

(** The hints of the [catch] block. *)
Definition hint_lines (msg : string) : list event :=
  ((if includes msg "DefaultAzureCredential"
    then [log_event (nl ++ "Tip: Make sure you're logged in with 'az login'")]
    else [])
   ++ (if includes msg "404" || includes msg "not found"
       then [log_event (nl ++ "Tip: Check that your AZURE_FOUNDRY_PROJECT_ENDPOINT is correct")]
       else [])
   ++ (if includes msg "createVersion"
       then [log_event (nl ++ "Tip: Agent creation failed. Check your model deployment name.")]
       else []))%list.

Definition error_logged (e : js_error) : event :=
  console_error [VString (nl ++ "Error occurred:"); VString (message e)].

(** What the [catch] block adds to the trace after the [try] block ended
    with completion [c]. *)
Definition caught (c : completion unit) : list event :=
  match c with
  | Throw e => error_logged e :: hint_lines (message e)
  | _ => []
  end.

Definition banner (ENDPOINT MODEL : value) : list event :=
  [ log_event (repeat_string "=" 60);
    log_event "AZURE AI FOUNDRY - Code Interpreter Demo v2 (JavaScript)";
    log_event "Using Registered Agent with Code Interpreter Tool";
    log_event (repeat_string "=" 60);
    log_event (nl ++ "Endpoint: " ++ to_string ENDPOINT);
    log_event ("Model Deployment: " ++ to_string MODEL ++ nl) ].

Definition config_error : list event :=
  [ console_error [VString "Error: Environment variables not set properly!"];
    console_error
      [VString "Please set AZURE_FOUNDRY_PROJECT_ENDPOINT and AZURE_FOUNDRY_GPT_MODEL"];
    process_exit 1 ].

Definition file_not_found : list event :=
  [ fs_existsSync csvFilePath;
    console_error [VString ("Error: File not found: " ++ csvFilePath)];
    console_error
      [VString "Please ensure sales_data.csv exists in the current directory."];
    process_exit 1 ].

Definition ENDPOINT_of (w : world) : value :=
  process_env (env_AZURE_FOUNDRY_PROJECT_ENDPOINT w).

Definition MODEL_of (w : world) : value :=
  process_env (env_AZURE_FOUNDRY_GPT_MODEL w).

(** *** Further vocabulary *)

(** [code.split('\n').map(line => "  " + line).join('\n')]: what the
    reporter prints for the code of a tool invocation. *)
Definition indent (code : string) : string :=
  indent_lines (split line_feed code).

(** The string holds no line feed. *)
Fixpoint single_line (s : string) : bool :=
  match s with
  | EmptyString => true
  | String a rest => negb (Ascii.eqb a line_feed) && single_line rest
  end.

(** [needle] occurs in [hay]. *)
Definition occurs_in (needle hay : string) : Prop :=
  exists before after, hay = before ++ needle ++ after.




(** The three tips of the [catch] block. *)
Definition tip_login : event :=
  console_log
    [VString (String "010" "Tip: Make sure you're logged in with 'az login'")].
Definition tip_endpoint : event :=
  console_log
    [VString (String "010"
                "Tip: Check that your AZURE_FOUNDRY_PROJECT_ENDPOINT is correct")].
Definition tip_model : event :=
  console_log
    [VString (String "010"
                "Tip: Agent creation failed. Check your model deployment name.")].

(** The fixed text of the prompt before and after the CSV content. *)
Definition prompt_before_csv : string :=
  "Here is a CSV file with sales data:" ++ nl ++ nl ++ "```csv" ++ nl.

Definition prompt_after_csv : string :=
  nl ++ "```" ++ nl ++
  nl ++
  "Please analyze this data and:" ++ nl ++
  "1. Calculate the total annual sales, expenses, and profit" ++ nl ++
  "2. Identify the month with the highest profit" ++ nl ++
  "3. Calculate the average monthly profit margin (profit/sales * 100)" ++ nl ++
  "4. Provide a brief summary of the business performance" ++ nl ++
  nl ++
  "Use Python code to perform these calculations.".

(** A call to the outside: the file system, a constructor of the SDK, or
    the service. *)
Definition is_call (e : event) : bool :=
  match e with
  | fs_existsSync _ | fs_readFileSync _ _ => true
  | _ => is_client_or_network e
  end.

(** Two events of the same kind (the same call, whatever the
    arguments). *)
Definition same_kind (e1 e2 : event) : bool :=
  match e1, e2 with
  | console_log _, console_log _
  | console_error _, console_error _
  | console_error_reason _, console_error_reason _
  | process_exit _, process_exit _
  | fs_existsSync _, fs_existsSync _
  | fs_readFileSync _ _, fs_readFileSync _ _
  | DefaultAzureCredential_new, DefaultAzureCredential_new
  | AIProjectClient_new _, AIProjectClient_new _
  | project_getOpenAIClient, project_getOpenAIClient
  | agents_createVersion _ _ _ _ _, agents_createVersion _ _ _ _ _
  | conversations_create, conversations_create
  | responses_create _ _ _ _, responses_create _ _ _ _
  | conversations_delete _, conversations_delete _
  | agents_deleteVersion _ _, agents_deleteVersion _ _
  | enter_finally, enter_finally => true
  | _, _ => false
  end.

(** The [agents.createVersion] call of the script. *)
Definition createVersion_call (MODEL : value) : event :=
  agents_createVersion "DataAnalystAgent" "prompt" MODEL instructions
                       ["code_interpreter"].

(** The variables of [main] at the end of the [try] block and the calls
    the [try] block made, when the data file exists;
    [try_block_summary] shows that the code ends with exactly these. *)
Definition pipeline_summary (w : world) (ENDPOINT MODEL : value)
  : vars * list event :=
  let p := Some (new_AIProjectClient ENDPOINT) in
  let o := Some the_OpenAIClient in
  let calls0 := [fs_existsSync csvFilePath; fs_readFileSync csvFilePath "utf-8"] in
  match on_readFileSync w with
  | inr _ => (vars0, calls0)
  | inl csvContent =>
  let calls1 := (calls0 ++ [DefaultAzureCredential_new])%list in
  match on_DefaultAzureCredential w with
  | inr _ => (vars0, calls1)
  | inl _ =>
  let calls2 := (calls1 ++ [AIProjectClient_new ENDPOINT])%list in
  match on_AIProjectClient w with
  | inr _ => (vars0, calls2)
  | inl _ =>
  let calls3 := (calls2 ++ [project_getOpenAIClient])%list in
  match on_getOpenAIClient w with
  | inr _ => (Vars VNull p None VNull, calls3)
  | inl _ =>
  let calls4 := (calls3 ++ [createVersion_call MODEL])%list in
  match on_createVersion w with
  | inr _ => (Vars VNull p o VNull, calls4)
  | inl a =>
  if nullish a then (Vars a p o VNull, calls4) else
  let calls5 := (calls4 ++ [conversations_create])%list in
  match on_conversations_create w with
  | inr _ => (Vars a p o VNull, calls5)
  | inl c =>
  if nullish c then (Vars a p o c, calls5) else
  (Vars a p o c,
   (calls5 ++ [responses_create (get_prop_opt c "id") (userPrompt csvContent)
                                (get_prop_opt a "name") "agent_reference"])%list)
  end end end end end end.

(** The deletion calls of the cleanup phase. *)
Definition deletion_calls (s : vars) : list event :=
  ((if conversation_guard s
    then [conversations_delete (get_prop_opt (conversation s) "id")] else [])
   ++ (if agent_guard s
       then [agents_deleteVersion (get_prop_opt (agent s) "name")
                                  (get_prop_opt (agent s) "version")]
       else []))%list.

(** The calls of a whole run, in order. *)
Definition run_calls (w : world) : list event :=
  if config_ok w then
    if on_existsSync w then
      let summary := pipeline_summary w (ENDPOINT_of w) (MODEL_of w) in
      (snd summary ++ deletion_calls (fst summary))%list
    else [fs_existsSync csvFilePath]
  else [].

(** *** The values a template literal can print *)






(** *** Sample responses *)

Definition sample_code : string := "import pandas as pd" ++ nl ++ "print(total)".

Definition sample_tool_item : value :=
  VObject [("type", VString "code_interpreter_call");
           ("id", VString "ci_1");
           ("code", VString sample_code)].

Definition sample_message_item : value :=
  VObject [("type", VString "message")].

Definition response_with_tool : value :=
  VObject [("id", VString "resp_1");
           ("output_text", VString "Total sales: 5");
           ("output", VArray [sample_message_item; sample_tool_item])].







(** *** Sample worlds *)

Definition sample_agent : value :=
  VObject [("id", VString "DataAnalystAgent:1");
           ("name", VString "DataAnalystAgent");
           ("version", VString "1")].

Definition sample_conversation : value := VObject [("id", VString "conv_1")].

(** Everything succeeds. *)
Definition world_ok : world :=
  World (Some "https://example.services.ai.azure.com/api/projects/p")
        (Some "gpt-4.1-mini")
        true (inl "Month,Sales,Expenses,Profit")
        (inl tt) (inl tt) (inl tt)
        (inl sample_agent) (inl sample_conversation)
        (inl response_with_tool)
        (inl tt) (inl tt).

(** Both deletions fail. *)
Definition world_deletions_fail : world :=
  World (Some "https://example.services.ai.azure.com/api/projects/p")
        (Some "gpt-4.1-mini")
        true (inl "Month,Sales,Expenses,Profit")
        (inl tt) (inl tt) (inl tt)
        (inl sample_agent) (inl sample_conversation)
        (inl response_with_tool)
        (inr (Error "Error" "conversation is gone"))
        (inr (Error "Error" "agent is gone")).

(** The agent is created, the conversation is not. *)
Definition world_conversation_fails : world :=
  World (Some "https://example.services.ai.azure.com/api/projects/p")
        (Some "gpt-4.1-mini")
        true (inl "Month,Sales,Expenses,Profit")
        (inl tt) (inl tt) (inl tt)
        (inl sample_agent) (inr (Error "Error" "503 unavailable"))
        (inl response_with_tool)
        (inl tt) (inl tt).

(** The data file is missing. *)
Definition world_without_csv : world :=
  World (Some "https://example.services.ai.azure.com/api/projects/p")
        (Some "gpt-4.1-mini")
        false (inr (Error "Error" "ENOENT: no such file or directory"))
        (inl tt) (inl tt) (inl tt)
        (inl sample_agent) (inl sample_conversation)
        (inl response_with_tool)
        (inl tt) (inl tt).

(** Neither variable is set. *)
Definition world_without_config : world :=
  World None None
        true (inl "Month,Sales,Expenses,Profit")
        (inl tt) (inl tt) (inl tt)
        (inl sample_agent) (inl sample_conversation)
        (inl response_with_tool)
        (inl tt) (inl tt).

(** The endpoint is set, the model name is set to the empty string. *)
Definition world_empty_model : world :=
  World (Some "https://example.services.ai.azure.com/api/projects/p")
        (Some EmptyString)
        true (inl "Month,Sales,Expenses,Profit")
        (inl tt) (inl tt) (inl tt)
        (inl sample_agent) (inl sample_conversation)
        (inl response_with_tool)
        (inl tt) (inl tt).

(** The variables of [main] once both handles exist. *)
Definition vars_full : vars :=
  Vars sample_agent
       (Some (new_AIProjectClient
                (VString "https://example.services.ai.azure.com/api/projects/p")))
       (Some the_OpenAIClient)
       sample_conversation.

(** ** Reasoning about the monad *)

Lemma bind_normal {A B} (m : M A) (f : A -> M B) s a s1 t1 c s2 t2 :
  m s = (Normal a, s1, t1) ->
  f a s1 = (c, s2, t2) ->
  bind m f s = (c, s2, (t1 ++ t2)%list).
Proof. intros Hm Hf. unfold bind. rewrite Hm, Hf. reflexivity. Qed.

Lemma bind_throw {A B} (m : M A) (f : A -> M B) s e s1 t1 :
  m s = (Throw e, s1, t1) ->
  bind m f s = (Throw e, s1, t1).
Proof. intros Hm. unfold bind. rewrite Hm. reflexivity. Qed.


Lemma get_prop_not_nullish v key :
  nullish v = false -> get_prop v key = inl (get_prop_opt v key).
Proof. destruct v; simpl; intros H; try discriminate; reflexivity. Qed.

Lemma get_prop_nullish v key :
  nullish v = true -> exists e, get_prop v key = inr e.
Proof. destruct v; simpl; intros H; try discriminate; eauto. Qed.

Lemma truthy_not_nullish v : truthy v = true -> nullish v = false.
Proof. destruct v; simpl; intros H; try discriminate; reflexivity. Qed.

Lemma console_only_ret {A} (a : A) : console_only (ret a).
Proof. intros s. exists (Normal a), []. split; [reflexivity | split; [intros n; discriminate | constructor]]. Qed.

Lemma console_only_lift {A} (r : A + js_error) : console_only (lift r).
Proof.
  intros s. destruct r as [a | e]; simpl.
  - exists (Normal a), []. split; [reflexivity | split; [intros n; discriminate | constructor]].
  - exists (Throw e), []. split; [reflexivity | split; [intros n; discriminate | constructor]].
Qed.

Lemma console_only_log (x : string) : console_only (log x).
Proof.
  intros s. exists (Normal tt), [log_event x].
  split; [reflexivity | split; [intros n; discriminate | repeat constructor]].
Qed.

Lemma console_only_emit_log (args : list value) :
  console_only (emit (console_log args)).
Proof.
  intros s. exists (Normal tt), [console_log args].
  split; [reflexivity | split; [intros n; discriminate | repeat constructor]].
Qed.

Lemma console_only_bind {A B} (m : M A) (f : A -> M B) :
  console_only m -> (forall a, console_only (f a)) -> console_only (bind m f).
Proof.
  intros Hm Hf s.
  destruct (Hm s) as (c & t & Em & Hc & Ht).
  destruct c as [a | e | n].
  - destruct (Hf a s) as (c2 & t2 & Ef & Hc2 & Ht2).
    exists c2, (t ++ t2)%list. split; [| split].
    + eapply bind_normal; eauto.
    + exact Hc2.
    + apply Forall_app; split; assumption.
  - exists (Throw e), t. split; [| split].
    + eapply bind_throw; eauto.
    + intros n; discriminate.
    + exact Ht.
  - exfalso. apply (Hc n). reflexivity.
Qed.

Lemma console_only_if {A} (b : bool) (m1 m2 : M A) :
  console_only m1 -> console_only m2 -> console_only (if b then m1 else m2).
Proof. destruct b; auto. Qed.

Ltac console_only_tac :=
  repeat first
    [ apply console_only_bind; [| intros ?]
    | apply console_only_if
    | apply console_only_log
    | apply console_only_emit_log
    | apply console_only_lift
    | apply console_only_ret ].

Lemma console_only_analyse_item item used : console_only (analyse_item item used).
Proof. unfold analyse_item, prop. console_only_tac. Qed.

Lemma console_only_for_of items : forall used, console_only (for_of items used).
Proof.
  induction items as [| item rest IH]; intros used; simpl.
  - apply console_only_ret.
  - apply console_only_bind; [apply console_only_analyse_item | intros u; apply IH].
Qed.

Lemma console_only_reporter response : console_only (reporter response).
Proof.
  unfold reporter, display_response, response_analysis, response_structure, prop.
  repeat first
    [ apply console_only_for_of
    | apply console_only_bind; [| intros ?]
    | apply console_only_if
    | apply console_only_log
    | apply console_only_emit_log
    | apply console_only_lift
    | apply console_only_ret ].
Qed.

(** ** Strings: [includes], [split] and [join] *)

Lemma append_nil_r s : s ++ EmptyString = s.
Proof. induction s as [| a s IH]; simpl; [reflexivity | rewrite IH; reflexivity]. Qed.

Lemma append_assoc s1 s2 s3 : (s1 ++ s2) ++ s3 = s1 ++ (s2 ++ s3).
Proof. induction s1 as [| a s1 IH]; simpl; [reflexivity | rewrite IH; reflexivity]. Qed.

Lemma length_append s1 s2 :
  String.length (s1 ++ s2) = (String.length s1 + String.length s2)%nat.
Proof. induction s1 as [| a s1 IH]; simpl; [reflexivity | rewrite IH; reflexivity]. Qed.

Lemma append_inv_head p a b : p ++ a = p ++ b -> a = b.
Proof.
  induction p as [| c p IH]; simpl; intros H; [exact H |].
  injection H as H. auto.
Qed.

Lemma append_inv_tail t : forall a b, a ++ t = b ++ t -> a = b.
Proof.
  intros a. induction a as [| c a IH]; intros b H.
  - destruct b as [| d b]; [reflexivity |].
    exfalso. apply (f_equal String.length) in H.
    simpl in H. rewrite length_append in H. lia.
  - destruct b as [| d b].
    + exfalso. apply (f_equal String.length) in H.
      simpl in H. rewrite length_append in H. lia.
    + simpl in H. injection H as -> H. f_equal. auto.
Qed.

Lemma prefix_occurs p : forall s,
  String.prefix p s = true <-> exists after, s = p ++ after.
Proof.
  induction p as [| a p IH]; intros s.
  - destruct s; simpl; split; eauto.
  - destruct s as [| b s]; simpl.
    + split; [discriminate | intros [after H]; discriminate].
    + destruct (ascii_dec a b) as [-> | Hne].
      * rewrite IH. split; intros [after H]; exists after.
        -- rewrite H. reflexivity.
        -- injection H as H. exact H.
      * split; [discriminate |].
        intros [after H]. injection H as H _. congruence.
Qed.

(** [hay.includes(needle)] holds exactly when [needle] occurs in [hay]. *)
Lemma includes_occurs hay : forall needle,
  includes hay needle = true <-> occurs_in needle hay.
Proof.
  unfold occurs_in.
  induction hay as [| a hay IH]; intros needle.
  - change (includes EmptyString needle)
      with (String.prefix needle EmptyString || false).
    rewrite orb_false_r, prefix_occurs. split.
    + intros [after H]. exists EmptyString, after. exact H.
    + intros (before & after & H). destruct before; [eauto | discriminate].
  - change (includes (String a hay) needle)
      with (String.prefix needle (String a hay) || includes hay needle).
    rewrite orb_true_iff, prefix_occurs, IH. split.
    + intros [[after H] | (before & after & H)].
      * exists EmptyString, after. exact H.
      * exists (String a before), after. rewrite H. reflexivity.
    + intros (before & after & H). destruct before as [| b before].
      * left. exists after. exact H.
      * right. simpl in H. injection H as _ H. eauto.
Qed.

Lemma split_cons c a s :
  split c (String a s) =
    if Ascii.eqb a c then EmptyString :: split c s
    else match split c s with
         | h :: t => String a h :: t
         | [] => [String a EmptyString]
         end.
Proof. reflexivity. Qed.

Lemma split_not_nil c s : split c s <> [].
Proof.
  destruct s as [| a s]; simpl; [discriminate |].
  destruct (Ascii.eqb a c); [discriminate |].
  destruct (split c s); discriminate.
Qed.

(** Joining the lines gives the text back. *)
Lemma join_split s : join nl (split line_feed s) = s.
Proof.
  unfold join. induction s as [| a s IH]; [reflexivity |].
  simpl split. destruct (Ascii.eqb a line_feed) eqn:Ha.
  - apply Ascii.eqb_eq in Ha. subst a.
    pose proof (split_not_nil line_feed s) as Hne.
    destruct (split line_feed s) as [| h t] eqn:Hs; [contradiction |].
    change (String.concat nl (EmptyString :: h :: t))
      with (nl ++ String.concat nl (h :: t)).
    rewrite IH. reflexivity.
  - destruct (split line_feed s) as [| h t] eqn:Hs.
    + exfalso. exact (split_not_nil line_feed s Hs).
    + destruct t as [| h2 t]; simpl in IH |- *; rewrite IH; reflexivity.
Qed.

Lemma split_single_line s : single_line s = true -> split line_feed s = [s].
Proof.
  induction s as [| a s IH]; simpl; [reflexivity |].
  intros H. apply andb_true_iff in H. destruct H as [Ha Hs].
  apply negb_true_iff in Ha. rewrite Ha, (IH Hs). reflexivity.
Qed.

Lemma split_lines_single c s : c = line_feed ->
  Forall (fun line => single_line line = true) (split c s).
Proof.
  intros ->. induction s as [| a s IH]; simpl; [repeat constructor |].
  destruct (Ascii.eqb a line_feed) eqn:Ha.
  - constructor; [reflexivity | exact IH].
  - destruct (split line_feed s) as [| h t]; [repeat constructor; simpl; rewrite Ha; reflexivity |].
    inversion IH; subst. constructor; [| assumption].
    simpl. rewrite Ha. assumption.
Qed.

Lemma split_append_line_feed a : forall b,
  split line_feed (a ++ nl ++ b) = (split line_feed a ++ split line_feed b)%list.
Proof.
  induction a as [| c a IH]; intros b.
  - reflexivity.
  - change (String c a ++ nl ++ b) with (String c (a ++ nl ++ b)).
    rewrite !split_cons, IH.
    destruct (Ascii.eqb c line_feed); [reflexivity |].
    pose proof (split_not_nil line_feed a) as Hne.
    destruct (split line_feed a) as [| h t]; [contradiction | reflexivity].
Qed.

(** Splitting joined lines gives the lines back, when no line holds a
    line feed. *)
Lemma split_join lines :
  lines <> [] ->
  Forall (fun line => single_line line = true) lines ->
  split line_feed (join nl lines) = lines.
Proof.
  unfold join. intros Hne Hall. induction Hall as [| h t Hh Ht IH];
    [contradiction |].
  destruct t as [| h2 t].
  - simpl String.concat. apply split_single_line. exact Hh.
  - change (String.concat nl (h :: h2 :: t))
      with (h ++ nl ++ String.concat nl (h2 :: t)).
    rewrite split_append_line_feed, (split_single_line h Hh), IH by discriminate.
    reflexivity.
Qed.

Lemma join_app l1 l2 :
  l1 <> [] -> l2 <> [] ->
  join nl (l1 ++ l2) = join nl l1 ++ nl ++ join nl l2.
Proof.
  unfold join. intros H1 H2. induction l1 as [| h t IH]; [contradiction |].
  destruct t as [| h2 t].
  - destruct l2 as [| k l2]; [contradiction | reflexivity].
  - change (String.concat nl ((h :: h2 :: t) ++ l2))
      with (h ++ nl ++ String.concat nl ((h2 :: t) ++ l2)).
    rewrite IH by discriminate.
    change (String.concat nl (h :: h2 :: t))
      with (h ++ nl ++ String.concat nl (h2 :: t)).
    rewrite !append_assoc. reflexivity.
Qed.


(** ** The response reporter *)

#[local] Arguments String.append : simpl never.
#[local] Arguments to_string : simpl never.
#[local] Arguments rule : simpl never.
#[local] Arguments indent_lines : simpl never.
#[local] Arguments split : simpl never.
#[local] Arguments includes : simpl never.
#[local] Arguments repeat_string : simpl never.

Lemma analyse_item_ok item used s :
  item_ok item = true ->
  exists t,
    analyse_item item used s = (Normal (is_tool_call item || used), s, t)
    /\ (is_tool_call item = true -> tool_call_printed item t).
Proof.
  unfold item_ok. intros H.
  apply andb_true_iff in H. destruct H as [Hn Hc].
  apply negb_true_iff in Hn.
  unfold analyse_item, prop.
  rewrite !(get_prop_not_nullish item) by exact Hn.
  unfold is_tool_call in *.
  destruct (strict_eq_string (get_prop_opt item "type") "code_interpreter_call")
    eqn:Htool.
  - simpl in Hc.
    destruct (truthy (get_prop_opt item "code")) eqn:Htr; simpl in Hc.
    + destruct (get_prop_opt item "code") as [| | | | code | |] eqn:Hcode;
        try discriminate.
      eexists. split.
      * unfold bind, ret, log, emit, lift. simpl in Htr |- *.
        rewrite Htool. simpl. rewrite Htr. simpl. reflexivity.
      * intros _. unfold tool_call_printed, log_event. simpl.
        repeat split; auto 10.
        intros code' Heq Hne. rewrite Hcode in Heq. injection Heq as <-.
        auto 12.
    + eexists. split.
      * unfold bind, ret, log, emit, lift. simpl.
        rewrite Htool. simpl. rewrite Htr. simpl. reflexivity.
      * intros _. unfold tool_call_printed, log_event. simpl.
        repeat split; auto 10.
        intros code' Heq Hne. rewrite Heq in Htr. simpl in Htr.
        apply negb_false_iff in Htr. apply String.eqb_eq in Htr. contradiction.
  - eexists. split.
    + unfold bind, ret, log, emit, lift. simpl. rewrite Htool. reflexivity.
    + intros; discriminate.
Qed.

Lemma analyse_item_bad item used s :
  item_ok item = false ->
  exists e t, analyse_item item used s = (Throw e, s, t).
Proof.
  unfold item_ok, analyse_item, prop. intros H.
  destruct (nullish item) eqn:Hn.
  - destruct (get_prop_nullish item "type" Hn) as [e He].
    exists e, []. unfold bind, lift. rewrite He. reflexivity.
  - simpl in H. rewrite !(get_prop_not_nullish item) by exact Hn.
    unfold is_tool_call in H.
    destruct (strict_eq_string (get_prop_opt item "type") "code_interpreter_call")
      eqn:Htool; simpl in H; [| discriminate].
    destruct (truthy (get_prop_opt item "code")) eqn:Htr; simpl in H;
      [| discriminate].
    eexists. eexists.
    unfold bind, ret, log, emit, lift. simpl. rewrite Htool. simpl.
    rewrite Htr. simpl.
    destruct (get_prop_opt item "code"); simpl in H |- *;
      try discriminate; reflexivity.
Qed.




(** The loop throws at the first item that is not well-formed. *)
Lemma for_of_bad items :
  forallb item_ok items = false ->
  forall used s, exists e t, for_of items used s = (Throw e, s, t).
Proof.
  induction items as [| item rest IH]; simpl; intros Hbad used s.
  - discriminate.
  - destruct (item_ok item) eqn:Hitem; simpl in Hbad.
    + destruct (analyse_item_ok item used s Hitem) as (t1 & E1 & _).
      destruct (IH Hbad (is_tool_call item || used) s) as (e & t2 & E2).
      exists e, (t1 ++ t2)%list. eapply bind_normal; eauto.
    + destruct (analyse_item_bad item used s Hitem) as (e & t & E).
      exists e, t. eapply bind_throw; eauto.
Qed.

(** The three parts of the reporter on a response that is an object (not
    [null], not [undefined]), from any state of the variables. *)
Section OnResponse.

Variable response : value.
Variable s : vars.
Hypothesis Hn : nullish response = false.






End OnResponse.



(** ** The cleanup phase *)

Lemma delete_conversation_eq w s :
  delete_conversation w s = (Normal tt, s, conversation_cleanup w s).
Proof.
  unfold delete_conversation, conversation_cleanup, conversation_guard.
  unfold bind at 1 2. unfold read. simpl.
  destruct (truthy (conversation s)) eqn:Ht; simpl; [| reflexivity].
  destruct (openAIClient s); simpl; [| reflexivity].
  unfold try_catch, prop, call, bind, lift, emit, log, ret, throw.
  rewrite (get_prop_not_nullish (conversation s))
    by (apply truthy_not_nullish; exact Ht).
  destruct (on_conversations_delete w) as [[] | e]; reflexivity.
Qed.

Lemma delete_agent_eq w s :
  delete_agent w s = (Normal tt, s, agent_cleanup w s).
Proof.
  unfold delete_agent, agent_cleanup, agent_guard.
  unfold bind at 1 2. unfold read. simpl.
  destruct (truthy (agent s)) eqn:Ht; simpl; [| reflexivity].
  destruct (project s); simpl; [| reflexivity].
  unfold try_catch, prop, call, bind, lift, emit, log, ret, throw.
  rewrite !(get_prop_not_nullish (agent s))
    by (apply truthy_not_nullish; exact Ht).
  destruct (on_deleteVersion w) as [[] | e]; reflexivity.
Qed.

Lemma finally_block_eq w s :
  finally_block w s = (Normal tt, s, cleanup_trace w s).
Proof.
  unfold finally_block.
  eapply (bind_normal _ _ s tt s [enter_finally]); [reflexivity |].
  eapply (bind_normal _ _ s tt s [log_event _]); [reflexivity |].
  eapply bind_normal; [apply delete_conversation_eq | apply delete_agent_eq].
Qed.

(** *** Counting events *)

Section Counting.

Variable f : event -> bool.

Lemma count_app t1 t2 :
  count f (t1 ++ t2) = (count f t1 + count f t2)%nat.
Proof. unfold count. rewrite filter_app, length_app. reflexivity. Qed.

Lemma filter_none t :
  Forall (fun e => f e = false) t -> filter f t = [].
Proof.
  induction 1 as [| e t He _ IH]; simpl; [reflexivity |].
  rewrite He. exact IH.
Qed.

Lemma count_none t : Forall (fun e => f e = false) t -> count f t = 0%nat.
Proof. intros H. unfold count. rewrite (filter_none t H). reflexivity. Qed.


Lemma Forall_excludes (g : event -> bool) t :
  (forall e, g e = true -> f e = false) ->
  Forall (fun e => g e = true) t -> Forall (fun e => f e = false) t.
Proof. intros Hfg H. eapply Forall_impl; [| exact H]. exact Hfg. Qed.

(** An event with property [f] that occurs once in a list: the list
    splits around it in one way only. *)
Lemma split_unique l1 y l2 :
  Forall (fun e => f e = false) l1 ->
  Forall (fun e => f e = false) l2 ->
  forall pre x post,
    (pre ++ x :: post = l1 ++ y :: l2)%list -> f x = true ->
    pre = l1 /\ x = y.
Proof.
  intros H1 H2. induction H1 as [| a l1 Ha H1 IH]; intros pre x post E Hx.
  - destruct pre as [| p pre]; simpl in E.
    + injection E as -> _. split; reflexivity.
    + injection E as _ E. subst l2.
      apply Forall_app in H2. destruct H2 as [_ H2].
      inversion H2; subst. congruence.
  - destruct pre as [| p pre]; simpl in E.
    + injection E as -> _. congruence.
    + injection E as -> E.
      destruct (IH pre x post E Hx) as [-> ->]. split; reflexivity.
Qed.

End Counting.

Lemma hint_lines_logs msg :
  Forall (fun e => is_console_log e = true) (hint_lines msg).
Proof.
  unfold hint_lines.
  destruct (includes msg "DefaultAzureCredential");
    destruct (includes msg "404" || includes msg "not found");
    destruct (includes msg "createVersion"); repeat constructor.
Qed.

Lemma banner_logs ENDPOINT MODEL :
  Forall (fun e => is_console_log e = true) (banner ENDPOINT MODEL).
Proof. repeat constructor. Qed.

Lemma cleanup_trace_counts w s :
  cleanup_count (cleanup_trace w s) = 1%nat
  /\ (count is_conversations_delete (cleanup_trace w s) <= 1)%nat
  /\ (count is_agents_deleteVersion (cleanup_trace w s) <= 1)%nat
  /\ count is_process_exit (cleanup_trace w s) = 0%nat
  /\ count is_console_error (cleanup_trace w s) = 0%nat
  /\ count is_responses_create (cleanup_trace w s) = 0%nat.
Proof.
  unfold cleanup_trace, conversation_cleanup, agent_cleanup, cleanup_count.
  destruct (conversation_guard s); destruct (agent_guard s);
    destruct (on_conversations_delete w); destruct (on_deleteVersion w);
    cbn; repeat split; lia.
Qed.

(** ** The run *)

#[local] Arguments userPrompt : simpl never.
#[local] Arguments reporter : simpl never.
#[local] Arguments get_prop : simpl never.
#[local] Arguments get_prop_opt : simpl never.

Ltac stopped_early :=
  do 3 eexists;
  split; [reflexivity |];
  split; [intros ?; discriminate |];
  split; [repeat constructor | left; repeat constructor].

Lemma try_block_shape w ENDPOINT MODEL s :
  on_existsSync w = true ->
  exists c s1 t1,
    try_block w ENDPOINT MODEL s = (c, s1, t1)
    /\ (forall n, c <> Exit n)
    /\ Forall (fun e => is_pipeline_event e = true) t1
    /\ (Forall (fun e => is_responses_create e = false) t1
        \/ dispatched w MODEL t1).
Proof.
  intros Hex. unfold try_block. rewrite Hex.
  unfold call, prop, log, assign, exit, bind, emit, lift, ret, throw. simpl.
  destruct (on_readFileSync w) as [csv | e] eqn:Hcsv; simpl;
    [| stopped_early].
  destruct (on_DefaultAzureCredential w) as [[] | e]; simpl;
    [| stopped_early].
  destruct (on_AIProjectClient w) as [[] | e]; simpl; [| stopped_early].
  destruct (on_getOpenAIClient w) as [[] | e]; simpl; [| stopped_early].
  destruct (on_createVersion w) as [a | e] eqn:Hagent; simpl;
    [| stopped_early].
  destruct (nullish a) eqn:Ha.
  { destruct (get_prop_nullish a "id" Ha) as [e He]. rewrite He. simpl.
    stopped_early. }
  rewrite !(get_prop_not_nullish a) by exact Ha. simpl.
  destruct (on_conversations_create w) as [cv | e] eqn:Hconv; simpl;
    [| stopped_early].
  destruct (nullish cv) eqn:Hc.
  { destruct (get_prop_nullish cv "id" Hc) as [e He]. rewrite He. simpl.
    stopped_early. }
  rewrite !(get_prop_not_nullish cv) by exact Hc. simpl.
  assert (Hlog_pipeline : forall t,
             Forall (fun e => is_console_log e = true) t ->
             Forall (fun e => is_pipeline_event e = true) t).
  { intros t Ht. eapply Forall_impl; [| exact Ht].
    intros [] Hx; simpl in *; congruence. }
  destruct (on_responses_create w) as [response | e]; simpl.
  - match goal with
    | |- context [reporter ?r ?st] =>
        destruct (console_only_reporter r st) as (c & t & Er & Hne & Hlog);
        rewrite Er
    end.
    do 3 eexists.
    split; [reflexivity |]. split; [exact Hne |].
    split; [repeat (apply Forall_cons; [reflexivity |]); auto |].
    right. exists csv, a, cv. eexists. exists t.
    split; [assumption |]. split; [assumption |]. split; [assumption |].
    split; [assumption |]. split; [assumption |].
    split.
    + match goal with
      | |- ?l = _ => change l with (firstn 24 l ++ skipn 24 l)%list
      end.
      simpl firstn. simpl skipn. reflexivity.
    + split; [simpl; auto 20 |]. split; [simpl; auto 20 |].
      split; [repeat constructor | exact Hlog].
  - do 3 eexists.
    split; [reflexivity |]. split; [intros ?; discriminate |].
    split; [repeat constructor |].
    right. exists csv, a, cv. eexists. exists [].
    split; [assumption |]. split; [assumption |]. split; [assumption |].
    split; [assumption |]. split; [assumption |].
    split.
    + match goal with
      | |- ?l = _ => change l with (firstn 24 l ++ skipn 24 l)%list
      end.
      simpl firstn. simpl skipn. reflexivity.
    + split; [simpl; auto 20 |]. split; [simpl; auto 20 |].
      split; repeat constructor.
Qed.

Lemma catch_block_eq e s :
  catch_block e s = (Normal tt, s, caught (Throw e)).
Proof.
  unfold catch_block, caught, hint_lines, error_logged.
  unfold bind, emit, log, ret.
  destruct (includes (message e) "DefaultAzureCredential");
    destruct (includes (message e) "404" || includes (message e) "not found");
    destruct (includes (message e) "createVersion"); reflexivity.
Qed.

Lemma main_shape w ENDPOINT MODEL s0 c s1 t1 :
  try_block w ENDPOINT MODEL vars0 = (c, s1, t1) ->
  (forall n, c <> Exit n) ->
  main w ENDPOINT MODEL s0 =
    (Normal tt, s1,
     (banner ENDPOINT MODEL ++ t1 ++ caught c ++ cleanup_trace w s1)%list).
Proof.
  intros Et Hne.
  assert (Htcf : try_catch_finally (try_block w ENDPOINT MODEL) catch_block
                   (finally_block w) vars0
                 = (Normal tt, s1, (t1 ++ caught c ++ cleanup_trace w s1)%list)).
  { unfold try_catch_finally, try_finally, try_catch. rewrite Et.
    destruct c as [[] | e | n].
    - rewrite finally_block_eq. reflexivity.
    - rewrite catch_block_eq. rewrite finally_block_eq.
      rewrite <- app_assoc. reflexivity.
    - exfalso. apply (Hne n). reflexivity. }
  unfold main, banner.
  unfold bind, log, emit, assign. fold vars0. rewrite Htcf. reflexivity.
Qed.

Lemma run_config_missing w :
  config_ok w = false -> run w = (Exit 1, vars0, config_error).
Proof.
  unfold config_ok, run, script. intros H.
  apply andb_false_iff in H.
  unfold bind, emit, exit.
  destruct H as [H | H]; rewrite H; simpl; [reflexivity |].
  rewrite orb_true_r. reflexivity.
Qed.

Lemma run_file_missing w :
  config_ok w = true -> on_existsSync w = false ->
  run w = (Exit 1, vars0,
           (banner (ENDPOINT_of w) (MODEL_of w) ++ file_not_found)%list).
Proof.
  unfold config_ok, run, script. intros H Hex.
  apply andb_true_iff in H. destruct H as [H1 H2].
  rewrite H1, H2. simpl.
  unfold main, try_catch_finally, try_finally, try_catch, try_block.
  rewrite Hex. reflexivity.
Qed.

Lemma script_config_ok w s :
  config_ok w = true ->
  script w s =
    try_catch (main w (ENDPOINT_of w) (MODEL_of w))
              (fun reason => emit (console_error_reason reason)) s.
Proof.
  unfold config_ok, script. intros H.
  apply andb_true_iff in H. destruct H as [H1 H2].
  rewrite H1, H2. simpl. unfold bind at 1. unfold ret at 1.
  fold (ENDPOINT_of w) (MODEL_of w).
  destruct (try_catch _ _ s) as [[c s2] t2]. reflexivity.
Qed.

(** A run that passes both pre-flight checks: the banner, the [try]
    block, the [catch] block if the [try] block threw, and the cleanup. *)
Lemma run_preflight_ok w :
  preflight_ok w = true ->
  exists c s1 t1,
    try_block w (ENDPOINT_of w) (MODEL_of w) vars0 = (c, s1, t1)
    /\ (forall n, c <> Exit n)
    /\ Forall (fun e => is_pipeline_event e = true) t1
    /\ (Forall (fun e => is_responses_create e = false) t1
        \/ dispatched w (MODEL_of w) t1)
    /\ run w =
         (Normal tt, s1,
          (banner (ENDPOINT_of w) (MODEL_of w) ++ t1 ++ caught c
             ++ cleanup_trace w s1)%list).
Proof.
  unfold preflight_ok. intros H.
  apply andb_true_iff in H. destruct H as [Hcfg Hex].
  destruct (try_block_shape w (ENDPOINT_of w) (MODEL_of w) vars0 Hex)
    as (c & s1 & t1 & Et & Hne & Hpipe & Hdisp).
  exists c, s1, t1. repeat (split; [assumption |]).
  unfold run. rewrite (script_config_ok w _ Hcfg).
  unfold try_catch.
  rewrite (main_shape w _ _ _ c s1 t1 Et Hne). reflexivity.
Qed.

Lemma exit_code_of_run w c s t :
  run w = (c, s, t) ->
  exit_code w = match c with Normal _ => 0 | Throw _ => 1 | Exit code => code end.
Proof. unfold exit_code. intros ->. reflexivity. Qed.

Lemma trace_of_run w c s t : run w = (c, s, t) -> trace w = t.
Proof. unfold trace. intros ->. reflexivity. Qed.

Lemma pipeline_not_finally e : is_pipeline_event e = true -> is_enter_finally e = false.
Proof. destruct e; simpl; congruence. Qed.



Lemma pipeline_not_conversations_delete e :
  is_pipeline_event e = true -> is_conversations_delete e = false.
Proof. destruct e; simpl; congruence. Qed.

Lemma pipeline_not_deleteVersion e :
  is_pipeline_event e = true -> is_agents_deleteVersion e = false.
Proof. destruct e; simpl; congruence. Qed.

Lemma log_is_pipeline e : is_console_log e = true -> is_pipeline_event e = true.
Proof. destruct e; simpl; congruence. Qed.

Lemma log_not_responses_create e :
  is_console_log e = true -> is_responses_create e = false.
Proof. destruct e; simpl; congruence. Qed.

(** Before the cleanup, a run that passes the pre-flight checks has done
    nothing but pipeline events and, at most, the error report. *)
Lemma before_cleanup_counts ENDPOINT MODEL t1 c (f : event -> bool) :
  Forall (fun e => is_pipeline_event e = true) t1 ->
  (forall e, is_pipeline_event e = true -> f e = false) ->
  (forall e, f (error_logged e) = false) ->
  count f (banner ENDPOINT MODEL ++ t1 ++ caught c) = 0%nat.
Proof.
  intros Hpipe Hf Herr.
  rewrite !count_app.
  rewrite (count_none f (banner ENDPOINT MODEL)).
  2:{ apply (Forall_excludes _ is_pipeline_event); [exact Hf |].
      eapply Forall_impl; [exact log_is_pipeline | apply banner_logs]. }
  rewrite (count_none f t1)
    by (apply (Forall_excludes _ is_pipeline_event); assumption).
  rewrite (count_none f (caught c)); [reflexivity |].
  destruct c as [[] | e | n]; simpl; try constructor.
  - apply Herr.
  - apply (Forall_excludes _ is_pipeline_event); [exact Hf |].
    eapply Forall_impl; [exact log_is_pipeline | apply hint_lines_logs].
Qed.


(** *** What the reporter throws *)











(** ** Properties of the specification *)

(** C1, as the code has it.  A run that passes both pre-flight checks
    enters the cleanup phase exactly once, as the last thing it does,
    whether the pipeline succeeded or threw at any point; a run stopped by
    a pre-flight check ends in [process.exit(1)] and never enters it. *)
Theorem C1_cleanup_once_after_preflight :
  forall w : world,
    cleanup_count (trace w) = (if preflight_ok w then 1 else 0)%nat
    /\ (preflight_ok w = true ->
        exists before s1,
          trace w = (before ++ cleanup_trace w s1)%list
          /\ cleanup_count before = 0%nat
          /\ finally_block w s1 = (Normal tt, s1, cleanup_trace w s1)).
Proof.
  intros w. destruct (preflight_ok w) eqn:Hpre.
  - destruct (run_preflight_ok w Hpre)
      as (c & s1 & t1 & _ & _ & Hpipe & _ & Hrun).
    rewrite (trace_of_run w _ _ _ Hrun).
    assert (Hbefore : cleanup_count
                        (banner (ENDPOINT_of w) (MODEL_of w) ++ t1 ++ caught c)
                      = 0%nat).
    { apply before_cleanup_counts;
        [exact Hpipe | exact pipeline_not_finally | reflexivity]. }
    split.
    + unfold cleanup_count in *.
      rewrite !app_assoc, count_app, <- !app_assoc, Hbefore.
      apply (cleanup_trace_counts w s1).
    + intros _.
      exists (banner (ENDPOINT_of w) (MODEL_of w) ++ t1 ++ caught c)%list, s1.
      split; [rewrite <- !app_assoc; reflexivity |].
      split; [exact Hbefore | apply finally_block_eq].
  - split; [| discriminate].
    unfold preflight_ok in Hpre. apply andb_false_iff in Hpre.
    destruct (config_ok w) eqn:Hcfg.
    + destruct Hpre as [Hpre | Hex]; [discriminate |].
      rewrite (trace_of_run w _ _ _ (run_file_missing w Hcfg Hex)).
      reflexivity.
    + rewrite (trace_of_run w _ _ _ (run_config_missing w Hcfg)).
      reflexivity.
Qed.

Lemma C1_witness :
  cleanup_count (trace world_conversation_fails) = 1%nat
  /\ exists before s1,
       trace world_conversation_fails
         = (before ++ cleanup_trace world_conversation_fails s1)%list
       /\ cleanup_count before = 0%nat
       /\ finally_block world_conversation_fails s1
            = (Normal tt, s1, cleanup_trace world_conversation_fails s1).
Proof.
  destruct (C1_cleanup_once_after_preflight world_conversation_fails)
    as [Hcount Hlast].
  split; [exact Hcount | apply Hlast; reflexivity].
Defined.

(** C1 as stated fails: when the data file is missing (or the
    configuration is), the process exits with code 1 and the cleanup phase
    is not entered at all. *)
Lemma C1_counterexample :
  cleanup_count (trace world_without_csv) <> 1%nat
  /\ cleanup_count (trace world_without_config) <> 1%nat
  /\ exit_code world_without_csv = 1
  /\ trace world_without_csv =
       (banner (ENDPOINT_of world_without_csv) (MODEL_of world_without_csv)
          ++ file_not_found)%list.
Proof.
  split; [vm_compute; discriminate |].
  split; [vm_compute; discriminate |].
  split; reflexivity.
Qed.

(** C2.  The cleanup phase always ends normally and changes no variable,
    whatever the two deletion calls do.  The conversation deletion is
    attempted whenever its guard holds and the agent deletion is attempted
    whenever its guard holds, each whatever the outcome of the other call;
    a failed deletion is logged as a note and goes no further. *)
Theorem C2_cleanup_isolated :
  forall (w : world) (s : vars),
    exists t,
      finally_block w s = (Normal tt, s, t)
      /\ (conversation_guard s = true ->
            In (conversations_delete (get_prop_opt (conversation s) "id")) t)
      /\ (agent_guard s = true ->
            In (agents_deleteVersion (get_prop_opt (agent s) "name")
                                     (get_prop_opt (agent s) "version")) t)
      /\ (forall e, conversation_guard s = true ->
            on_conversations_delete w = inr e ->
            In (conversation_deleted_note e) t)
      /\ (forall e, agent_guard s = true ->
            on_deleteVersion w = inr e ->
            In (agent_deleted_note e) t).
Proof.
  intros w s. exists (cleanup_trace w s).
  split; [apply finally_block_eq |].
  unfold cleanup_trace, conversation_cleanup, agent_cleanup.
  split; [| split; [| split]].
  - intros ->. simpl. auto.
  - intros ->. right. right. apply in_or_app. right. left. reflexivity.
  - intros e -> ->. simpl. auto.
  - intros e -> ->. right. right. apply in_or_app. right.
    right. left. reflexivity.
Qed.

Lemma C2_witness :
  exists t,
    finally_block world_deletions_fail vars_full = (Normal tt, vars_full, t)
    /\ In (conversations_delete (VString "conv_1")) t
    /\ In (agents_deleteVersion (VString "DataAnalystAgent") (VString "1")) t
    /\ In (conversation_deleted_note (Error "Error" "conversation is gone")) t
    /\ In (agent_deleted_note (Error "Error" "agent is gone")) t.
Proof.
  destruct (C2_cleanup_isolated world_deletions_fail vars_full)
    as (t & Ef & Hc & Ha & Hcn & Han).
  exists t. split; [exact Ef |].
  split; [apply Hc; reflexivity |].
  split; [apply Ha; reflexivity |].
  split; [apply Hcn; reflexivity | apply Han; reflexivity].
Defined.






(** C5.  With both variables absent the process prints the configuration
    error and exits with code 1; that is all it does, so no client is
    constructed and no call reaches the service. *)
Theorem C5_both_variables_absent :
  forall w : world,
    env_AZURE_FOUNDRY_PROJECT_ENDPOINT w = None ->
    env_AZURE_FOUNDRY_GPT_MODEL w = None ->
    exit_code w = 1
    /\ trace w =
         [ console_error [VString "Error: Environment variables not set properly!"];
           console_error
             [VString "Please set AZURE_FOUNDRY_PROJECT_ENDPOINT and AZURE_FOUNDRY_GPT_MODEL"];
           process_exit 1 ]
    /\ Forall (fun e => is_client_or_network e = false) (trace w).
Proof.
  intros w HE HM.
  assert (Hcfg : config_ok w = false).
  { unfold config_ok. rewrite HE. reflexivity. }
  pose proof (run_config_missing w Hcfg) as Hrun.
  rewrite (exit_code_of_run w _ _ _ Hrun), (trace_of_run w _ _ _ Hrun).
  split; [reflexivity |]. split; [reflexivity |]. repeat constructor.
Qed.

Lemma C5_witness :
  exit_code world_without_config = 1
  /\ trace world_without_config =
       [ console_error [VString "Error: Environment variables not set properly!"];
         console_error
           [VString "Please set AZURE_FOUNDRY_PROJECT_ENDPOINT and AZURE_FOUNDRY_GPT_MODEL"];
         process_exit 1 ]
  /\ Forall (fun e => is_client_or_network e = false)
            (trace world_without_config).
Proof.
  apply (C5_both_variables_absent world_without_config); reflexivity.
Defined.

(** C6.  With the data file absent the process exits with code 1 before
    any credential or client is constructed and before any call to the
    service; when the configuration is in place, what it prints after the
    banner is the file-not-found error. *)
Theorem C6_file_absent :
  forall w : world,
    on_existsSync w = false ->
    exit_code w = 1
    /\ Forall (fun e => is_client_or_network e = false) (trace w)
    /\ (config_ok w = true ->
        trace w =
          (banner (ENDPOINT_of w) (MODEL_of w)
             ++ [ fs_existsSync "./sales_data.csv";
                  console_error [VString "Error: File not found: ./sales_data.csv"];
                  console_error
                    [VString "Please ensure sales_data.csv exists in the current directory."];
                  process_exit 1 ])%list).
Proof.
  intros w Hex.
  destruct (config_ok w) eqn:Hcfg.
  - pose proof (run_file_missing w Hcfg Hex) as Hrun.
    rewrite (exit_code_of_run w _ _ _ Hrun), (trace_of_run w _ _ _ Hrun).
    split; [reflexivity |]. split; [repeat constructor | reflexivity].
  - pose proof (run_config_missing w Hcfg) as Hrun.
    rewrite (exit_code_of_run w _ _ _ Hrun), (trace_of_run w _ _ _ Hrun).
    split; [reflexivity |]. split; [repeat constructor | discriminate].
Qed.

Lemma C6_witness :
  exit_code world_without_csv = 1
  /\ Forall (fun e => is_client_or_network e = false) (trace world_without_csv)
  /\ trace world_without_csv =
       (banner (ENDPOINT_of world_without_csv) (MODEL_of world_without_csv)
          ++ [ fs_existsSync "./sales_data.csv";
               console_error [VString "Error: File not found: ./sales_data.csv"];
               console_error
                 [VString "Please ensure sales_data.csv exists in the current directory."];
               process_exit 1 ])%list.
Proof.
  destruct (C6_file_absent world_without_csv eq_refl) as (Hc & Hn & Ht).
  split; [exact Hc |]. split; [exact Hn | apply Ht; reflexivity].
Defined.

(** C7.  In every run, a [responses.create] call comes only after
    [agents.createVersion] and [conversations.create] were called and
    returned the two handles, and it refers to exactly these handles (the
    conversation's [id], the agent's [name]); and each of the two deletion
    calls is made at most once. *)
Theorem C7_handle_lifecycle :
  forall w : world,
    (forall pre x post,
        trace w = (pre ++ x :: post)%list ->
        is_responses_create x = true ->
        exists csvContent a c,
          on_createVersion w = inl a
          /\ on_conversations_create w = inl c
          /\ nullish a = false
          /\ nullish c = false
          /\ x = responses_create (get_prop_opt c "id") (userPrompt csvContent)
                                  (get_prop_opt a "name") "agent_reference"
          /\ In (agents_createVersion "DataAnalystAgent" "prompt" (MODEL_of w)
                                      instructions ["code_interpreter"]) pre
          /\ In conversations_create pre)
    /\ (count is_conversations_delete (trace w) <= 1)%nat
    /\ (count is_agents_deleteVersion (trace w) <= 1)%nat.
Proof.
  intros w. destruct (preflight_ok w) eqn:Hpre.
  - destruct (run_preflight_ok w Hpre)
      as (c & s1 & t1 & _ & _ & Hpipe & Hdisp & Hrun).
    rewrite (trace_of_run w _ _ _ Hrun).
    assert (Hafter : Forall (fun e => is_responses_create e = false)
                       (caught c ++ cleanup_trace w s1)).
    { apply Forall_app. split.
      - destruct c as [[] | e | n]; simpl; repeat constructor.
        eapply Forall_impl; [exact log_not_responses_create |].
        apply hint_lines_logs.
      - unfold cleanup_trace, conversation_cleanup, agent_cleanup.
        destruct (conversation_guard s1); destruct (agent_guard s1);
          destruct (on_conversations_delete w); destruct (on_deleteVersion w);
          repeat constructor. }
    assert (Hbanner : Forall (fun e => is_responses_create e = false)
                        (banner (ENDPOINT_of w) (MODEL_of w)))
      by repeat constructor.
    split; [| split].
    + intros pre x post E Hx.
      destruct Hdisp as [Hnone | Hdisp].
      * exfalso.
        assert (Hall : Forall (fun e => is_responses_create e = false)
                         (pre ++ x :: post)).
        { rewrite <- E. apply Forall_app. split; [exact Hbanner |].
          apply Forall_app. split; [exact Hnone | exact Hafter]. }
        apply Forall_app in Hall. destruct Hall as [_ Hall].
        inversion Hall; subst. congruence.
      * destruct Hdisp as (csv & a & cv & pre0 & post0 & _ & Ha & Hc & Hna
                           & Hnc & -> & Hin1 & Hin2 & Hpre0 & Hpost0).
        assert (E' : (pre ++ x :: post
                      = (banner (ENDPOINT_of w) (MODEL_of w) ++ pre0)
                          ++ responses_create (get_prop_opt cv "id")
                               (userPrompt csv) (get_prop_opt a "name")
                               "agent_reference"
                          :: (post0 ++ caught c ++ cleanup_trace w s1))%list).
        { rewrite <- E, <- !app_assoc. reflexivity. }
        destruct (split_unique is_responses_create _ _ _
                    (proj2 (Forall_app _ _ _) (conj Hbanner Hpre0))
                    (proj2 (Forall_app _ _ _)
                       (conj (Forall_impl _ log_not_responses_create Hpost0)
                             Hafter))
                    pre x post E' Hx) as [-> ->].
        exists csv, a, cv.
        repeat (split; [assumption || reflexivity |]).
        split; apply in_or_app; right; assumption.
    + rewrite !app_assoc, count_app, <- !app_assoc.
      rewrite before_cleanup_counts;
        [| exact Hpipe | exact pipeline_not_conversations_delete | reflexivity].
      apply (cleanup_trace_counts w s1).
    + rewrite !app_assoc, count_app, <- !app_assoc.
      rewrite before_cleanup_counts;
        [| exact Hpipe | exact pipeline_not_deleteVersion | reflexivity].
      apply (cleanup_trace_counts w s1).
  - assert (Hshort : trace w = config_error
                     \/ trace w = (banner (ENDPOINT_of w) (MODEL_of w)
                                     ++ file_not_found)%list).
    { unfold preflight_ok in Hpre. apply andb_false_iff in Hpre.
      destruct (config_ok w) eqn:Hcfg.
      - destruct Hpre as [Hpre | Hex]; [discriminate |].
        right. apply (trace_of_run w _ _ _ (run_file_missing w Hcfg Hex)).
      - left. apply (trace_of_run w _ _ _ (run_config_missing w Hcfg)). }
    assert (Hnone : Forall (fun e => is_responses_create e = false) (trace w)
                    /\ count is_conversations_delete (trace w) = 0%nat
                    /\ count is_agents_deleteVersion (trace w) = 0%nat).
    { destruct Hshort as [-> | ->];
        (split; [repeat constructor | split; reflexivity]). }
    destruct Hnone as (Hnone & Hcd & Had).
    split; [| split; lia].
    intros pre x post E Hx. exfalso.
    rewrite E in Hnone. apply Forall_app in Hnone. destruct Hnone as [_ Hall].
    inversion Hall; subst. congruence.
Qed.

Lemma C7_witness :
  exists csvContent a c,
    on_createVersion world_ok = inl a
    /\ on_conversations_create world_ok = inl c
    /\ nullish a = false
    /\ nullish c = false
    /\ nth 30 (trace world_ok) enter_finally
       = responses_create (get_prop_opt c "id") (userPrompt csvContent)
                          (get_prop_opt a "name") "agent_reference"
    /\ In (agents_createVersion "DataAnalystAgent" "prompt" (MODEL_of world_ok)
                                instructions ["code_interpreter"])
          (firstn 30 (trace world_ok))
    /\ In conversations_create (firstn 30 (trace world_ok)).
Proof.
  destruct (C7_handle_lifecycle world_ok) as (Horder & _ & _).
  apply (Horder (firstn 30 (trace world_ok))
                (nth 30 (trace world_ok) enter_finally)
                (skipn 31 (trace world_ok)));
    reflexivity.
Defined.




(** C9.  A variable that is set to the empty string counts as absent, and
    one missing variable is enough: if either of the two is absent or
    empty, the process prints the configuration error and exits with
    code 1. *)
Theorem C9_one_falsy_variable_suffices :
  forall w : world,
    env_AZURE_FOUNDRY_PROJECT_ENDPOINT w = None
    \/ env_AZURE_FOUNDRY_PROJECT_ENDPOINT w = Some EmptyString
    \/ env_AZURE_FOUNDRY_GPT_MODEL w = None
    \/ env_AZURE_FOUNDRY_GPT_MODEL w = Some EmptyString ->
    exit_code w = 1
    /\ trace w =
         [ console_error [VString "Error: Environment variables not set properly!"];
           console_error
             [VString "Please set AZURE_FOUNDRY_PROJECT_ENDPOINT and AZURE_FOUNDRY_GPT_MODEL"];
           process_exit 1 ].
Proof.
  intros w H.
  assert (Hcfg : config_ok w = false).
  { unfold config_ok.
    destruct H as [H | [H | [H | H]]]; rewrite H; simpl;
      rewrite ?andb_false_r; reflexivity. }
  pose proof (run_config_missing w Hcfg) as Hrun.
  rewrite (exit_code_of_run w _ _ _ Hrun), (trace_of_run w _ _ _ Hrun).
  split; reflexivity.
Qed.

Lemma C9_witness :
  exit_code world_empty_model = 1
  /\ trace world_empty_model =
       [ console_error [VString "Error: Environment variables not set properly!"];
         console_error
           [VString "Please set AZURE_FOUNDRY_PROJECT_ENDPOINT and AZURE_FOUNDRY_GPT_MODEL"];
         process_exit 1 ].
Proof.
  apply (C9_one_falsy_variable_suffices world_empty_model).
  right. right. right. reflexivity.
Defined.




(** ** Further properties *)

(** *** The indentation of the executed code (line 182) *)

Lemma indent_lines_app l1 l2 :
  l1 <> [] -> l2 <> [] ->
  indent_lines (l1 ++ l2) = indent_lines l1 ++ nl ++ indent_lines l2.
Proof.
  intros H1 H2. unfold indent_lines. rewrite map_app.
  apply join_app; intros H; apply map_eq_nil in H; contradiction.
Qed.

(** X1.  A code fragment of one line is printed with two spaces in front,
    and the indentation of two fragments separated by a line feed is the
    indentation of each, separated by a line feed: every line gets the two
    spaces, nothing else changes. *)
Theorem X1_indent_line_by_line :
  (forall code, single_line code = true -> indent code = "  " ++ code)
  /\ (forall first rest,
        indent (first ++ nl ++ rest) = indent first ++ nl ++ indent rest).
Proof.
  split.
  - intros code H. unfold indent. rewrite (split_single_line code H).
    reflexivity.
  - intros first rest. unfold indent.
    rewrite split_append_line_feed.
    apply indent_lines_app; apply split_not_nil.
Qed.

Lemma X1_witness :
  indent "import pandas as pd" = "  import pandas as pd"
  /\ indent ("import pandas as pd" ++ nl ++ "print(total)")
     = "  import pandas as pd" ++ nl ++ "  print(total)".
Proof.
  destruct X1_indent_line_by_line as [Hone Htwo].
  split.
  - apply Hone. reflexivity.
  - rewrite Htwo, !Hone by reflexivity. reflexivity.
Defined.

(** X2.  Splitting the printed block on line feeds gives the lines of the
    code, each with two spaces in front: the number of lines is kept, and
    two different code fragments are never printed alike. *)
Theorem X2_indent_keeps_lines :
  forall code,
    split line_feed (indent code)
      = map (fun line => "  " ++ line) (split line_feed code)
    /\ List.length (split line_feed (indent code))
       = List.length (split line_feed code)
    /\ (forall other, indent code = indent other -> code = other).
Proof.
  assert (Hsplit : forall code,
             split line_feed (indent code)
             = map (fun line => "  " ++ line) (split line_feed code)).
  { intros code. unfold indent, indent_lines. apply split_join.
    - intros H. apply map_eq_nil in H. exact (split_not_nil _ _ H).
    - apply Forall_map.
      eapply Forall_impl; [| apply (split_lines_single line_feed code eq_refl)].
      intros line H. exact H. }
  intros code. split; [apply Hsplit |]. split.
  - rewrite Hsplit. apply length_map.
  - intros other H.
    assert (Hlines : split line_feed code = split line_feed other).
    { apply (f_equal (split line_feed)) in H. rewrite !Hsplit in H.
      revert H. generalize (split line_feed code) (split line_feed other).
      induction l as [| h t IH]; intros [| h' t'] E; try discriminate;
        [reflexivity |].
      simpl in E. injection E as Eh Et.
      f_equal; [exact Eh | auto]. }
    rewrite <- (join_split code), <- (join_split other), Hlines.
    reflexivity.
Qed.

Lemma X2_witness :
  split line_feed (indent ("import pandas as pd" ++ nl ++ "print(total)"))
    = ["  import pandas as pd"; "  print(total)"]
  /\ "print(total)" = "print(total)".
Proof.
  destruct (X2_indent_keeps_lines
              ("import pandas as pd" ++ nl ++ "print(total)"))
    as (Hlines & _ & _).
  destruct (X2_indent_keeps_lines "print(total)") as (_ & _ & Hinj).
  split; [exact Hlines | apply Hinj; reflexivity].
Defined.

(** *** The per-item analysis (lines 167 to 191) *)













(** X5.  The loop stops at the first item it cannot walk: whatever comes
    after a malformed item (a [null], or a tool invocation whose code is a
    truthy non-string) is never examined, so the outcome, a throw, and
    everything printed are the same as if the list ended there. *)
Theorem X5_loop_stops_at_malformed_item :
  forall (before after : list value) (bad : value) (used : bool) (s : vars),
    item_ok bad = false ->
    for_of (before ++ bad :: after) used s = for_of (before ++ [bad]) used s
    /\ exists e t, for_of (before ++ bad :: after) used s = (Throw e, s, t).
Proof.
  intros before after bad used s Hbad.
  assert (Hsame : forall u,
             for_of (before ++ bad :: after) u s
             = for_of (before ++ [bad]) u s).
  { induction before as [| item rest IH]; intros u; simpl.
    - destruct (analyse_item_bad bad u s Hbad) as (e & t & Eb).
      rewrite !(bind_throw _ _ _ _ _ _ Eb). reflexivity.
    - destruct (console_only_analyse_item item u s) as (c & t & E & _).
      unfold bind. rewrite E.
      destruct c as [u' | e | n]; try reflexivity.
      rewrite IH. reflexivity. }
  split; [apply Hsame |].
  rewrite Hsame.
  apply for_of_bad.
  rewrite forallb_app. simpl. rewrite Hbad. simpl. apply andb_false_r.
Qed.

Lemma X5_witness :
  for_of ([sample_message_item] ++ VNull :: [sample_tool_item]) false vars0
    = for_of ([sample_message_item] ++ [VNull]) false vars0
  /\ exists e t,
       for_of ([sample_message_item] ++ VNull :: [sample_tool_item]) false vars0
         = (Throw e, vars0, t).
Proof.
  apply (X5_loop_stops_at_malformed_item
           [sample_message_item] [sample_tool_item] VNull false vars0).
  reflexivity.
Defined.



(** *** The [catch] block (lines 206 to 217) *)

(** X7.  On the Error it caught (a [message] that is a string) the
    [catch] block ends normally and changes no variable.  What it prints
    is exactly: the message, through [console.error]; then the login tip
    if ["DefaultAzureCredential"] occurs in the message; then the
    endpoint tip if ["404"] or ["not found"] occurs in it; then the model
    tip if ["createVersion"] occurs in it.  Nothing else is printed, no tip
    twice, and one message can earn several tips. *)
Theorem X7_catch_block_tips :
  forall (error : js_error) (s : vars),
    exists tips,
      catch_block error s
        = (Normal tt, s,
           console_error [VString (String "010" "Error occurred:");
                          VString (message error)] :: tips)
      /\ tips
         = ((if includes (message error) "DefaultAzureCredential"
             then [tip_login] else [])
            ++ (if includes (message error) "404"
                   || includes (message error) "not found"
                then [tip_endpoint] else [])
            ++ (if includes (message error) "createVersion"
                then [tip_model] else []))%list
      /\ (includes (message error) "DefaultAzureCredential" = true
          <-> occurs_in "DefaultAzureCredential" (message error))
      /\ (includes (message error) "404" || includes (message error) "not found"
            = true
          <-> occurs_in "404" (message error)
              \/ occurs_in "not found" (message error))
      /\ (includes (message error) "createVersion" = true
          <-> occurs_in "createVersion" (message error))
      /\ (In tip_login tips
          <-> occurs_in "DefaultAzureCredential" (message error))
      /\ (In tip_endpoint tips
          <-> occurs_in "404" (message error)
              \/ occurs_in "not found" (message error))
      /\ (In tip_model tips <-> occurs_in "createVersion" (message error)).
Proof.
  intros error s. exists (hint_lines (message error)).
  split; [apply catch_block_eq |].
  split; [reflexivity |].
  split; [apply includes_occurs |].
  split; [rewrite orb_true_iff, !includes_occurs; reflexivity |].
  split; [apply includes_occurs |].
  rewrite <- !includes_occurs, <- orb_true_iff.
  unfold hint_lines, tip_login, tip_endpoint, tip_model.
  destruct (includes (message error) "DefaultAzureCredential");
    destruct (includes (message error) "404"
              || includes (message error) "not found");
    destruct (includes (message error) "createVersion");
    cbn [app In];
    repeat split; intros H; try reflexivity; try discriminate H;
      auto;
      repeat (destruct H as [H | H];
              [first [discriminate H | injection H as H; vm_compute in H;
                                       discriminate H] |]);
      try contradiction.
Qed.

Lemma X7_witness :
  catch_block (Error "Error" "404 Resource not found: createVersion failed")
              vars0
    = (Normal tt, vars0,
       [ console_error [VString (String "010" "Error occurred:");
                        VString "404 Resource not found: createVersion failed"];
         tip_endpoint; tip_model ]).
Proof.
  destruct (X7_catch_block_tips
              (Error "Error" "404 Resource not found: createVersion failed")
              vars0) as (tips & E & Htips & _).
  rewrite E, Htips. reflexivity.
Defined.

(** *** The prompt (lines 113 to 125) *)

Lemma userPrompt_eq csvContent :
  userPrompt csvContent = prompt_before_csv ++ csvContent ++ prompt_after_csv.
Proof. reflexivity. Qed.

(** X8.  The prompt carries the content of the data file verbatim, whatever
    it is (empty, or with line feeds or code fences of its own), between
    the same opening and closing text; and two different file contents
    never give the same prompt. *)
Theorem X8_prompt_embeds_csv :
  (forall csvContent,
      userPrompt csvContent = prompt_before_csv ++ csvContent ++ prompt_after_csv
      /\ includes (userPrompt csvContent) csvContent = true)
  /\ (forall csv1 csv2, userPrompt csv1 = userPrompt csv2 -> csv1 = csv2).
Proof.
  split.
  - intros csvContent. split; [apply userPrompt_eq |].
    apply includes_occurs.
    exists prompt_before_csv, prompt_after_csv. apply userPrompt_eq.
  - intros csv1 csv2 H. rewrite !userPrompt_eq in H.
    apply append_inv_head in H. apply append_inv_tail in H. exact H.
Qed.

Lemma X8_witness :
  includes (userPrompt ("Month,Sales" ++ nl ++ "Jan,10000"))
           ("Month,Sales" ++ nl ++ "Jan,10000") = true
  /\ "Month,Sales" = "Month,Sales".
Proof.
  destruct X8_prompt_embeds_csv as [Hin Hinj].
  split; [apply Hin | apply Hinj; reflexivity].
Defined.

(** *** The calls of a run *)

Ltac stopped_early_summary :=
  do 2 eexists;
  split; [reflexivity |];
  split; [intros ?; discriminate | reflexivity].

Lemma try_block_summary w ENDPOINT MODEL :
  on_existsSync w = true ->
  exists c t1,
    try_block w ENDPOINT MODEL vars0
      = (c, fst (pipeline_summary w ENDPOINT MODEL), t1)
    /\ (forall n, c <> Exit n)
    /\ filter is_call t1 = snd (pipeline_summary w ENDPOINT MODEL).
Proof.
  intros Hex. unfold try_block, pipeline_summary. rewrite Hex.
  unfold call, prop, log, assign, exit, bind, emit, lift, ret, throw. simpl.
  destruct (on_readFileSync w) as [csv | e]; simpl;
    [| stopped_early_summary].
  destruct (on_DefaultAzureCredential w) as [[] | e]; simpl;
    [| stopped_early_summary].
  destruct (on_AIProjectClient w) as [[] | e]; simpl;
    [| stopped_early_summary].
  destruct (on_getOpenAIClient w) as [[] | e]; simpl;
    [| stopped_early_summary].
  destruct (on_createVersion w) as [a | e]; simpl;
    [| stopped_early_summary].
  destruct (nullish a) eqn:Ha.
  { destruct (get_prop_nullish a "id" Ha) as [e He]. rewrite He. simpl.
    stopped_early_summary. }
  rewrite !(get_prop_not_nullish a) by exact Ha. simpl.
  destruct (on_conversations_create w) as [cv | e]; simpl;
    [| stopped_early_summary].
  destruct (nullish cv) eqn:Hc.
  { destruct (get_prop_nullish cv "id" Hc) as [e He]. rewrite He. simpl.
    stopped_early_summary. }
  rewrite !(get_prop_not_nullish cv) by exact Hc. simpl.
  destruct (on_responses_create w) as [response | e]; simpl;
    [| stopped_early_summary].
  match goal with
  | |- context [reporter ?r ?st] =>
      destruct (console_only_reporter r st) as (c & t & Er & Hne & Hlog);
      rewrite Er
  end.
  do 2 eexists.
  split; [reflexivity |]. split; [exact Hne |].
  match goal with
  | |- filter _ ?l = _ => change l with (firstn 25 l ++ skipn 25 l)%list
  end.
  simpl firstn. simpl skipn. rewrite filter_app.
  rewrite (filter_none is_call t); [reflexivity |].
  eapply Forall_impl; [| exact Hlog].
  intros [] Hx; simpl in *; congruence.
Qed.

Lemma filter_call_cleanup w s :
  filter is_call (cleanup_trace w s) = deletion_calls s.
Proof.
  unfold cleanup_trace, conversation_cleanup, agent_cleanup, deletion_calls.
  destruct (conversation_guard s); destruct (agent_guard s);
    destruct (on_conversations_delete w); destruct (on_deleteVersion w);
    reflexivity.
Qed.

(** The calls of a run are an explicit function of what the run meets. *)
Lemma trace_calls w : filter is_call (trace w) = run_calls w.
Proof.
  unfold run_calls.
  destruct (config_ok w) eqn:Hcfg.
  - destruct (on_existsSync w) eqn:Hex.
    + assert (Hpre : preflight_ok w = true)
        by (unfold preflight_ok; rewrite Hcfg, Hex; reflexivity).
      destruct (run_preflight_ok w Hpre)
        as (c & s1 & t1 & Et & _ & _ & _ & Hrun).
      destruct (try_block_summary w (ENDPOINT_of w) (MODEL_of w) Hex)
        as (c' & t1' & Et' & _ & Hcalls).
      rewrite Et in Et'. injection Et' as _ Hs Ht. subst s1 t1'.
      rewrite (trace_of_run w _ _ _ Hrun), !filter_app.
      rewrite (filter_none is_call (banner _ _)) by repeat constructor.
      rewrite Hcalls, filter_call_cleanup.
      rewrite (filter_none is_call (caught c)); [reflexivity |].
      destruct c as [[] | e | n]; simpl; repeat constructor.
      eapply Forall_impl; [| apply hint_lines_logs].
      intros [] Hx; simpl in *; congruence.
    + rewrite (trace_of_run w _ _ _ (run_file_missing w Hcfg Hex)).
      reflexivity.
  - rewrite (trace_of_run w _ _ _ (run_config_missing w Hcfg)).
    reflexivity.
Qed.

Lemma in_trace_calls w e :
  is_call e = true -> (In e (trace w) <-> In e (run_calls w)).
Proof.
  intros He. rewrite <- trace_calls, filter_In. tauto.
Qed.

Lemma filter_calls (g : event -> bool) w :
  (forall e, g e = true -> is_call e = true) ->
  filter g (trace w) = filter g (run_calls w).
Proof.
  intros Hg. rewrite <- trace_calls.
  induction (trace w) as [| e t IH]; [reflexivity |].
  simpl. destruct (g e) eqn:Hge.
  - rewrite (Hg e Hge). simpl. rewrite Hge, IH. reflexivity.
  - destruct (is_call e); simpl; rewrite ?Hge; exact IH.
Qed.

(** Case analysis on everything the calls of a run depend on. *)
Ltac run_cases w :=
  unfold run_calls, pipeline_summary, deletion_calls,
    conversation_guard, agent_guard;
  destruct (config_ok w) eqn:Hcfg;
  [ destruct (on_existsSync w) eqn:Hex;
    [ destruct (on_readFileSync w) as [csv | ?] eqn:Hread;
      [ destruct (on_DefaultAzureCredential w) as [[] | ?] eqn:Hcred;
        [ destruct (on_AIProjectClient w) as [[] | ?] eqn:Hclient;
          [ destruct (on_getOpenAIClient w) as [[] | ?] eqn:Hopenai;
            [ destruct (on_createVersion w) as [a | ?] eqn:Hagent;
              [ destruct (nullish a) eqn:Hna;
                [ | destruct (on_conversations_create w) as [c | ?] eqn:Hconv;
                    [ destruct (nullish c) eqn:Hnc | ] ]
              | ] | ] | ] | ] | ] | ] | ];
  cbn [fst snd app agent project openAIClient conversation is_some vars0
       andb].

Lemma nullish_falsy v : nullish v = true -> truthy v = false.
Proof. destruct v; simpl; intros H; try discriminate; reflexivity. Qed.

(** X9.  The agent is released exactly when it was created: if
    [agents.createVersion] was called and returned a (truthy) agent, the
    run calls [agents.deleteVersion] once, with the name and version of
    that agent, whatever else failed; and [agents.deleteVersion] is never
    called otherwise. *)
Theorem X9_agent_released_iff_created :
  forall w : world,
    (forall a,
        In (createVersion_call (MODEL_of w)) (trace w) ->
        on_createVersion w = inl a ->
        truthy a = true ->
        filter is_agents_deleteVersion (trace w)
          = [agents_deleteVersion (get_prop_opt a "name")
                                  (get_prop_opt a "version")])
    /\ (forall name version,
          In (agents_deleteVersion name version) (trace w) ->
          exists a,
            on_createVersion w = inl a
            /\ truthy a = true
            /\ name = get_prop_opt a "name"
            /\ version = get_prop_opt a "version"
            /\ In (createVersion_call (MODEL_of w)) (trace w)).
Proof.
  intros w. split.
  - intros a0 Hin Ha0 Ht0.
    rewrite in_trace_calls in Hin by reflexivity.
    rewrite filter_calls by (intros []; simpl; congruence).
    revert Hin. run_cases w.
    all: intros Hin.
    all: try (simpl in Hin;
              repeat (destruct Hin as [Hin | Hin]; try discriminate Hin);
              contradiction).
    all: try discriminate Ha0.
    all: injection Ha0 as <-.
    all: try (rewrite (nullish_falsy _ Hna) in Ht0; discriminate Ht0).
    all: rewrite Ht0.
    all: try (destruct (truthy c)); reflexivity.
  - intros name version Hin.
    rewrite in_trace_calls in Hin by reflexivity.
    cut (exists a,
            on_createVersion w = inl a
            /\ truthy a = true
            /\ name = get_prop_opt a "name"
            /\ version = get_prop_opt a "version"
            /\ In (createVersion_call (MODEL_of w)) (run_calls w)).
    { intros (a & H1 & H2 & H3 & H4 & H5). exists a.
      repeat (split; [assumption |]).
      apply in_trace_calls; [reflexivity | exact H5]. }
    revert Hin. run_cases w.
    all: intros Hin.
    all: try (rewrite (nullish_falsy _ Hna) in * );
      try (rewrite (nullish_falsy _ Hnc) in * ).
    all: try (destruct (truthy a) eqn:Hta); try (destruct (truthy c) eqn:Htc).
    all: simpl in Hin;
      repeat (destruct Hin as [Hin | Hin]; try discriminate Hin);
      try contradiction.
    all: injection Hin as <- <-; exists a;
      repeat (split; [reflexivity |]); simpl; auto 12.
Qed.

Lemma X9_witness :
  filter is_agents_deleteVersion (trace world_conversation_fails)
    = [agents_deleteVersion (VString "DataAnalystAgent") (VString "1")]
  /\ exists a,
       on_createVersion world_ok = inl a
       /\ truthy a = true
       /\ VString "DataAnalystAgent" = get_prop_opt a "name"
       /\ VString "1" = get_prop_opt a "version"
       /\ In (createVersion_call (MODEL_of world_ok)) (trace world_ok).
Proof.
  split.
  - apply (proj1 (X9_agent_released_iff_created world_conversation_fails)
             sample_agent); [| reflexivity | reflexivity].
    apply in_trace_calls; [reflexivity | vm_compute; auto 20].
  - apply (proj2 (X9_agent_released_iff_created world_ok)).
    apply in_trace_calls; [reflexivity | vm_compute; auto 20].
Defined.

(** X10.  The conversation is released exactly when it was created: if
    [conversations.create] was called and returned a (truthy)
    conversation, the run calls [conversations.delete] once, with the id
    of that conversation, whatever failed afterwards; and
    [conversations.delete] is never called otherwise. *)
Theorem X10_conversation_released_iff_created :
  forall w : world,
    (forall c,
        In conversations_create (trace w) ->
        on_conversations_create w = inl c ->
        truthy c = true ->
        filter is_conversations_delete (trace w)
          = [conversations_delete (get_prop_opt c "id")])
    /\ (forall id,
          In (conversations_delete id) (trace w) ->
          exists c,
            on_conversations_create w = inl c
            /\ truthy c = true
            /\ id = get_prop_opt c "id"
            /\ In conversations_create (trace w)).
Proof.
  intros w. split.
  - intros c0 Hin Hc0 Ht0.
    rewrite in_trace_calls in Hin by reflexivity.
    rewrite filter_calls by (intros []; simpl; congruence).
    revert Hin. run_cases w.
    all: intros Hin.
    all: try (rewrite (nullish_falsy _ Hna) in * ).
    all: try (destruct (truthy a) eqn:Hta).
    all: try (simpl in Hin;
              repeat (destruct Hin as [Hin | Hin]; try discriminate Hin);
              contradiction).
    all: try discriminate Hc0.
    all: injection Hc0 as <-.
    all: try (rewrite (nullish_falsy _ Hnc) in Ht0; discriminate Ht0).
    all: rewrite Ht0.
    all: reflexivity.
  - intros id Hin.
    rewrite in_trace_calls in Hin by reflexivity.
    cut (exists c,
            on_conversations_create w = inl c
            /\ truthy c = true
            /\ id = get_prop_opt c "id"
            /\ In conversations_create (run_calls w)).
    { intros (c & H1 & H2 & H3 & H4). exists c.
      repeat (split; [assumption |]).
      apply in_trace_calls; [reflexivity | exact H4]. }
    revert Hin. run_cases w.
    all: intros Hin.
    all: try (rewrite (nullish_falsy _ Hna) in * );
      try (rewrite (nullish_falsy _ Hnc) in * ).
    all: try (destruct (truthy a) eqn:Hta); try (destruct (truthy c) eqn:Htc).
    all: simpl in Hin;
      repeat (destruct Hin as [Hin | Hin]; try discriminate Hin);
      try contradiction.
    all: injection Hin as <-; exists c;
      repeat (split; [reflexivity |]); simpl; auto 12.
Qed.

Lemma X10_witness :
  filter is_conversations_delete (trace world_deletions_fail)
    = [conversations_delete (VString "conv_1")]
  /\ exists c,
       on_conversations_create world_ok = inl c
       /\ truthy c = true
       /\ VString "conv_1" = get_prop_opt c "id"
       /\ In conversations_create (trace world_ok).
Proof.
  split.
  - apply (proj1 (X10_conversation_released_iff_created world_deletions_fail)
             sample_conversation); [| reflexivity | reflexivity].
    apply in_trace_calls; [reflexivity | vm_compute; auto 20].
  - apply (proj2 (X10_conversation_released_iff_created world_ok)).
    apply in_trace_calls; [reflexivity | vm_compute; auto 20].
Defined.

Ltac in_calls H :=
  simpl in H;
  repeat (destruct H as [H | H]; try discriminate H);
  try contradiction.

(** X11.  The pipeline is strictly sequential and stops at the first
    failure: each call is made only after the call before it was made and
    returned (the file is read only if it exists, the credential is
    constructed only after the file was read, and so on up to
    [conversations.create], which needs an agent that is not [null]). *)
Theorem X11_each_call_needs_the_previous :
  forall w : world,
    (forall path encoding,
        In (fs_readFileSync path encoding) (trace w) ->
        on_existsSync w = true /\ In (fs_existsSync path) (trace w))
    /\ (In DefaultAzureCredential_new (trace w) ->
        (exists csvContent, on_readFileSync w = inl csvContent)
        /\ In (fs_readFileSync csvFilePath "utf-8") (trace w))
    /\ (forall endpoint,
          In (AIProjectClient_new endpoint) (trace w) ->
          on_DefaultAzureCredential w = inl tt
          /\ In DefaultAzureCredential_new (trace w))
    /\ (In project_getOpenAIClient (trace w) ->
        on_AIProjectClient w = inl tt
        /\ In (AIProjectClient_new (ENDPOINT_of w)) (trace w))
    /\ (forall name kind model text tools,
          In (agents_createVersion name kind model text tools) (trace w) ->
          on_getOpenAIClient w = inl tt
          /\ In project_getOpenAIClient (trace w))
    /\ (In conversations_create (trace w) ->
        (exists a, on_createVersion w = inl a /\ nullish a = false)
        /\ In (createVersion_call (MODEL_of w)) (trace w)).
Proof.
  intros w.
  split; [| split; [| split; [| split; [| split]]]]; intros.
  all: rewrite ?in_trace_calls by reflexivity.
  all: match goal with
       | H : In _ (trace _) |- _ =>
           rewrite in_trace_calls in H by reflexivity; revert H
       end.
  all: run_cases w; intros Hin.
  all: try (rewrite (nullish_falsy _ Hna) in * );
    try (rewrite (nullish_falsy _ Hnc) in * ).
  all: try (destruct (truthy a) eqn:Hta); try (destruct (truthy c) eqn:Htc).
  all: in_calls Hin.
  all: try (injection Hin as <- <-).
  all: split; [first [reflexivity | eauto] | simpl; auto 12].
Qed.

Lemma X11_witness :
  (exists a, on_createVersion world_ok = inl a /\ nullish a = false)
  /\ In (createVersion_call (MODEL_of world_ok)) (trace world_ok).
Proof.
  destruct (X11_each_call_needs_the_previous world_ok)
    as (_ & _ & _ & _ & _ & Hconv).
  apply Hconv.
  apply in_trace_calls; [reflexivity | vm_compute; auto 20].
Defined.

Lemma same_kind_call e e' :
  is_call e = true -> same_kind e e' = true -> is_call e' = true.
Proof. destruct e, e'; simpl; congruence. Qed.

(** X12.  There are no retries: in any run, no call (to the file system,
    to a constructor of the SDK, to the service) is made twice. *)
Theorem X12_no_call_twice :
  forall (w : world) (e : event),
    is_call e = true ->
    (count (same_kind e) (trace w) <= 1)%nat.
Proof.
  intros w e He. unfold count.
  rewrite (filter_calls (same_kind e) w)
    by (intros e' H; exact (same_kind_call e e' He H)).
  run_cases w.
  all: try (rewrite (nullish_falsy _ Hna) in * );
    try (rewrite (nullish_falsy _ Hnc) in * ).
  all: try (destruct (truthy a) eqn:Hta); try (destruct (truthy c) eqn:Htc).
  all: destruct e; try discriminate He; simpl; lia.
Qed.

Lemma X12_witness :
  (count (same_kind (createVersion_call (MODEL_of world_ok)))
         (trace world_ok) <= 1)%nat.
Proof.
  apply (X12_no_call_twice world_ok (createVersion_call (MODEL_of world_ok))).
  reflexivity.
Defined.

(** X13.  The deletions are the last calls of a run, the conversation's
    before the agent's: the calls of a run are the calls of the pipeline,
    none of which is a deletion, then the conversation deletion (if any),
    then the agent deletion (if any). *)
Theorem X13_deletions_come_last :
  forall w : world,
    exists pipeline,
      filter is_call (trace w)
        = (pipeline ++ filter is_conversations_delete (trace w)
             ++ filter is_agents_deleteVersion (trace w))%list
      /\ Forall (fun e => is_conversations_delete e = false
                          /\ is_agents_deleteVersion e = false) pipeline.
Proof.
  intros w.
  rewrite trace_calls.
  rewrite (filter_calls is_conversations_delete)
    by (intros []; simpl; congruence).
  rewrite (filter_calls is_agents_deleteVersion)
    by (intros []; simpl; congruence).
  run_cases w.
  all: try (rewrite (nullish_falsy _ Hna) in * );
    try (rewrite (nullish_falsy _ Hnc) in * ).
  all: try (destruct (truthy a) eqn:Hta); try (destruct (truthy c) eqn:Htc).
  all: simpl; eexists;
    (split; [ | shelve ]);
    match goal with
    | |- ?l = (_ ++ ?d)%list =>
        let n := eval compute in (List.length l - List.length d)%nat in
        instantiate (1 := firstn n l); reflexivity
    end.
  Unshelve.
  all: simpl; repeat constructor.
Qed.


